(** * Rescuemind maps screen: route-request admission, supersession and
      route session state

    A shallow embedding of [app/index.tsx].  The file holds two revisions of
    the [Home] component:

    - the first (lines 1-493) throttles route requests by a minimum spacing
      of [REQUEST_INTERVAL_MS] and a quota guard; it is embedded in module
      [Throttled];
    - the second (lines 494-1018) drops the spacing check, aborts the
      previous request through an [AbortController] and densifies the
      polyline; it is embedded in module [Cancelling].

    JavaScript numbers that carry measurements (latitudes, longitudes,
    metres, seconds) are IEEE 754 binary64 values, modelled by Rocq's
    primitive floats.  Counters and [Date.now()] timestamps are integral
    numbers far below 2^53, where binary64 arithmetic is exact; they are
    modelled by [Z].

    [async fetchRouteFromPoints] is split at its single [await]: the
    synchronous prefix (credential check, admission, issuing the POST) and
    the continuation that runs when the promise settles.  Every handler
    returns the calls it made on its environment (console, axios) next to
    the new component state.  Styles and camera moves through [mapRef]
    are outside the model.

    Modules [ThrottledHome] and [CancellingHome] add the rest of each
    revision: the location callback, what [Home] renders and the dispatch
    of events to the handlers.  Module [Navigation] embeds the second
    screen of the repository, [TabTwoScreen], which is attached to
    README.md. *)

From Stdlib Require Import ZArith String Ascii List Lia Bool.
From Stdlib Require Import PrimFloat SpecFloat FloatOps FloatAxioms Uint63
  DecimalString.
From stdpp Require Import base option list.

Local Open Scope string_scope.
Local Open Scope list_scope.
Local Open Scope nat_scope.

(** ** JavaScript numbers *)

(** The JavaScript Number type is [float] throughout. *)

(** The integer [n] as a Number; exact for |n| <= 2^53, the only range in
    which it is used. *)
Definition number_of_Z (n : Z) : float :=
  if (n <? 0)%Z then (- of_uint63 (Uint63.of_Z (- n)))%float
  else of_uint63 (Uint63.of_Z n).

(** [floor_half_up k s m e] is floor (x * k + 1/2) for the finite non-zero
    binary64 value x = (-1)^s * m * 2^e, computed exactly over [Z]. *)
Definition floor_half_up (k : Z) (s : bool) (m : positive) (e : Z) : Z :=
  let sm := ((if s then - Z.pos m else Z.pos m) * k)%Z in
  if (0 <=? e)%Z then (sm * 2 ^ e)%Z
  else ((2 * sm + 2 ^ (- e)) / 2 ^ (1 - e))%Z.

(** The largest integer not above a finite Number, exactly (0 for NaN
    and the infinities, which have none). *)
Definition Z_of_number (x : float) : Z :=
  match Prim2SF x with
  | S754_finite s m e =>
      let sm := if s then Z.neg m else Z.pos m in
      if (0 <=? e)%Z then (sm * 2 ^ e)%Z else (sm / 2 ^ (- e))%Z
  | _ => 0%Z
  end.

(** [Math.floor]. *)
Definition Math_floor (x : float) : float :=
  match Prim2SF x with
  | S754_finite s m e =>
      if (0 <=? e)%Z then x else number_of_Z (Z_of_number x)
  | _ => x
  end.

(** [Math.round]: the nearest integral Number, ties towards +Infinity; a
    negative argument that rounds to zero gives -0. *)
Definition Math_round (x : float) : float :=
  match Prim2SF x with
  | S754_finite s m e =>
      if (0 <=? e)%Z then x
      else
        let n := floor_half_up 1 s m e in
        if (n =? 0)%Z && s then (-0)%float else number_of_Z n
  | _ => x
  end.

(** The decimal digits of a non-negative integer. *)
Definition decimal (n : Z) : string :=
  NilZero.string_of_uint (N.to_uint (Z.to_N n)).

(** [pad2 n] is the two-digit rendering of [0 <= n < 100]. *)
Definition pad2 (n : Z) : string :=
  if (n <? 10)%Z then ("0" ++ decimal n)%string else decimal n.

(** The magnitude of a finite value is below 10^21, the bound under which
    [toFixed] and [Number::toString] print plain decimal digits. *)
Definition below_1e21 (m : positive) (e : Z) : bool :=
  if (0 <=? e)%Z then (Z.pos m * 2 ^ e <? 10 ^ 21)%Z
  else (Z.pos m <? 10 ^ 21 * 2 ^ (- e))%Z.

(** [x.toFixed(2)].  ECMAScript picks the integer [n] for which
    [n / 100 - x] is closest to zero, the larger one on a tie, working
    on the exact value of [x].  [None]: the magnitude is 10^21 or more,
    where [toFixed] falls back to exponent notation, which is not
    modelled. *)
Definition toFixed2 (x : float) : option string :=
  match Prim2SF x with
  | S754_nan => Some "NaN"
  | S754_infinity s => Some (if s then "-Infinity" else "Infinity")
  | S754_zero _ => Some "0.00"
  | S754_finite s m e =>
      if below_1e21 m e then
        let n := floor_half_up 100 false m e in
        Some ((if s then "-" else "")
                ++ decimal (n / 100) ++ "." ++ pad2 (n mod 100))%string
      else None
  end.

(** [ToString] of a Number, as string concatenation applies it.  Covered:
    NaN, the infinities, the zeros and integral values of magnitude below
    2^53, which print as their exact decimal digits.  [None] elsewhere:
    fractions, and magnitudes from 2^53 on, where JavaScript prints the
    shortest digits that read back as the same Number (padded with zeros,
    or in exponent notation from 10^21 on). *)
Definition Number_toString (x : float) : option string :=
  match Prim2SF x with
  | S754_nan => Some "NaN"
  | S754_infinity s => Some (if s then "-Infinity" else "Infinity")
  | S754_zero _ => Some "0"
  | S754_finite s m e =>
      if (0 <=? e)%Z then
        if (Z.pos m * 2 ^ e <? 2 ^ 53)%Z then
          Some ((if s then "-" else "") ++ decimal (Z.pos m * 2 ^ e))%string
        else None
      else if (Z.pos m mod 2 ^ (- e) =? 0)%Z then
        Some ((if s then "-" else "") ++ decimal (Z.pos m / 2 ^ (- e)))%string
      else None
  end.

(** The exact value of a finite Number, counted in units of 2^-1074 (every
    finite binary64 value is a whole number of them); [None] for NaN and
    the infinities. *)
Definition exact_units (x : float) : option Z :=
  match Prim2SF x with
  | S754_zero _ => Some 0%Z
  | S754_finite s m e =>
      Some ((if s then Z.neg m else Z.pos m) * 2 ^ (e + 1074))%Z
  | _ => None
  end.

(** ** Coordinates and the wire format *)

Record Coordinate : Type := mkCoordinate {
  latitude : float;
  longitude : float
}.

(** The request body puts a point on the wire as [[lng, lat]]
    (lines 125-128 and 624-627). *)
Definition wire_position (lat lng : float) : list float := [lng; lat].

(** The response decoder [c => ({ latitude: c[1], longitude: c[0] })]
    (lines 139-142 and 642-645).  [None]: [c[0]] or [c[1]] is [undefined],
    which the declared type [Coordinate] has no value for. *)
Definition decode_position (c : list float) : option Coordinate :=
  lon ← c !! 0;
  lat ← c !! 1;
  Some {| latitude := lat; longitude := lon |}.

(** ** Densification (second revision, lines 647-662) *)

(** [Array.prototype.flatMap] with the element index passed to the
    callback; a callback that throws ([None]) aborts the whole call. *)
Fixpoint flatMap_from {A B : Type} (f : A -> nat -> option (list B))
    (index : nat) (l : list A) : option (list B) :=
  match l with
  | [] => Some []
  | x :: l' =>
      ys ← f x index;
      rest ← flatMap_from f (S index) l';
      Some (ys ++ rest)
  end.

Definition flatMap {A B : Type} (f : A -> nat -> option (list B))
    (l : list A) : option (list B) :=
  flatMap_from f 0 l.

(** The object literal of lines 655-658. *)
Definition midpoint (prev point : Coordinate) : Coordinate :=
  {| latitude := (latitude prev + latitude point) / 2;
     longitude := (longitude prev + longitude point) / 2 |}%float.

(** [smoothCoords].  [None] stands for the TypeError that reading
    [prev.latitude] raises when [coords[index - 1]] is [undefined]. *)
Definition smoothCoords (coords : list Coordinate)
    : option (list Coordinate) :=
  flatMap
    (fun point index =>
       if Nat.eqb index 0 then Some [point]
       else
         prev ← coords !! (index - 1);
         Some [midpoint prev point; point])
    coords.

(** ** The directions service *)

Record RequestBody : Type := mkRequestBody {
  coordinates : list (list float);
  preference : option string;
  geometry_simplify : option bool;
  extra_info : option (list string)
}.

(** [feature.properties.summary]. *)
Record Summary : Type := mkSummary {
  summary_distance : float;
  summary_duration : float
}.

(** One entry of [response.data.features].  A field the response lacks is
    [None]; reading through it raises a TypeError. *)
Record Feature : Type := mkFeature {
  geometry_coordinates : option (list (list float));
  properties_summary : option Summary
}.

(** A thrown value, as far as the [catch] clauses look at it. *)
Record JsError : Type := mkJsError {
  error_name : string;
  error_code : option string
}.

Definition TypeError : JsError :=
  {| error_name := "TypeError"; error_code := None |}.


(** How the promise of [axios.post] settles; [resolved] carries
    [response.data.features]. *)
Inductive AxiosResult : Type :=
| resolved (features : list Feature)
| rejected (error : JsError).

(** Calls on the environment.  [signal] names the [AbortController] whose
    signal the request carries. *)
Inductive Effect : Type :=
| console_error (message : string)
| console_warn (message : string)
| console_log (message : string) (error : JsError)
| axios_post (url : string) (body : RequestBody) (authorization : string)
    (signal : option nat).

Definition is_axios_post (e : Effect) : bool :=
  match e with
  | axios_post _ _ _ _ => true
  | _ => false
  end.

(** The number of outbound requests among the effects of a call. *)
Definition request_count (es : list Effect) : nat :=
  length (filter (fun e => is_axios_post e = true) es).

Definition directions_url : string :=
  "https://api.openrouteservice.org/v2/directions/driving-car/geojson".

(** The branch by which a call of [fetchRouteFromPoints] leaves its
    synchronous prefix: one of the three early [return]s, or the [await]
    on the issued request ([token] is the request's [AbortController] in
    the second revision, [None] in the first, which has none). *)
Inductive Decision : Type :=
| MissingCredential
| RejectedTooSoon
| RejectedQuotaExceeded
| AdmittedWith (token : option nat).

(** JavaScript truthiness of [process.env.EXPO_PUBLIC_ORS_API_KEY]:
    [undefined] and the empty string are falsy. *)
Definition truthy (key : option string) : bool :=
  match key with
  | Some (String _ _) => true
  | _ => false
  end.

(** ** Component state *)

(** The [useState] cells and [useRef] boxes of [Home].  [cancelTokenRef]
    exists in the second revision only; the first never touches it.
    [controllers] is the heap of [AbortController] objects: entry [c] is
    [signal.aborted] of controller [c]. *)
Record State : Type := mkState {
  routeCoords : list Coordinate;
  startPoint : option Coordinate;
  endPoint : option Coordinate;
  distance : option string;
  duration : option string;
  userLocation : option Coordinate;
  requestCountRef : Z;
  lastRequestTimeRef : Z;
  cancelTokenRef : option nat;
  controllers : list bool
}.

(** The state [Home] mounts with. *)
Definition initial : State :=
  {| routeCoords := []; startPoint := None; endPoint := None;
     distance := None; duration := None; userLocation := None;
     requestCountRef := 0; lastRequestTimeRef := 0;
     cancelTokenRef := None; controllers := [] |}.

Definition setRouteCoords (v : list Coordinate) (s : State) : State :=
  mkState v (startPoint s) (endPoint s) (distance s) (duration s)
    (userLocation s) (requestCountRef s) (lastRequestTimeRef s)
    (cancelTokenRef s) (controllers s).

Definition setStartPoint (v : option Coordinate) (s : State) : State :=
  mkState (routeCoords s) v (endPoint s) (distance s) (duration s)
    (userLocation s) (requestCountRef s) (lastRequestTimeRef s)
    (cancelTokenRef s) (controllers s).

Definition setEndPoint (v : option Coordinate) (s : State) : State :=
  mkState (routeCoords s) (startPoint s) v (distance s) (duration s)
    (userLocation s) (requestCountRef s) (lastRequestTimeRef s)
    (cancelTokenRef s) (controllers s).

Definition setDistance (v : option string) (s : State) : State :=
  mkState (routeCoords s) (startPoint s) (endPoint s) v (duration s)
    (userLocation s) (requestCountRef s) (lastRequestTimeRef s)
    (cancelTokenRef s) (controllers s).

Definition setDuration (v : option string) (s : State) : State :=
  mkState (routeCoords s) (startPoint s) (endPoint s) (distance s) v
    (userLocation s) (requestCountRef s) (lastRequestTimeRef s)
    (cancelTokenRef s) (controllers s).

Definition set_requestCountRef (v : Z) (s : State) : State :=
  mkState (routeCoords s) (startPoint s) (endPoint s) (distance s)
    (duration s) (userLocation s) v (lastRequestTimeRef s)
    (cancelTokenRef s) (controllers s).

Definition set_lastRequestTimeRef (v : Z) (s : State) : State :=
  mkState (routeCoords s) (startPoint s) (endPoint s) (distance s)
    (duration s) (userLocation s) (requestCountRef s) v
    (cancelTokenRef s) (controllers s).

Definition set_cancelTokenRef (v : option nat) (s : State) : State :=
  mkState (routeCoords s) (startPoint s) (endPoint s) (distance s)
    (duration s) (userLocation s) (requestCountRef s)
    (lastRequestTimeRef s) v (controllers s).

Definition set_controllers (v : list bool) (s : State) : State :=
  mkState (routeCoords s) (startPoint s) (endPoint s) (distance s)
    (duration s) (userLocation s) (requestCountRef s)
    (lastRequestTimeRef s) (cancelTokenRef s) v.

(** ** Constants shared by both revisions *)

Definition DAILY_QUOTA : float := 2000%float.

(** [Math.floor(DAILY_QUOTA * 0.75)], read back as an integer. *)
Definition SAFETY_LIMIT : Z :=
  Z_of_number (Math_floor (DAILY_QUOTA * 0.75)).

(** ** Handlers that are the same in both revisions *)

(** [handleClearAll] (lines 168-174 and 693-699), bound to the Clear
    button and to [onLongPress]. *)
Definition handleClearAll (s : State) : State :=
  let s := setStartPoint None s in
  let s := setEndPoint None s in
  let s := setRouteCoords [] s in
  let s := setDistance None s in
  setDuration None s.

(** [handleUseMyLocation] (lines 158-166 and 683-691). *)
Definition handleUseMyLocation (s : State) : State :=
  match userLocation s with
  | Some here =>
      let s := setStartPoint (Some here) s in
      let s := setEndPoint None s in
      let s := setRouteCoords [] s in
      let s := setDistance None s in
      setDuration None s
  | None => s
  end.

(** The two [set...] calls on the display strings (lines 145-146 and
    666-667).  [None]: a rendering outside the modelled part of
    [toFixed] and [ToString]. *)
Definition distance_text (summary : Summary) : option string :=
  d ← toFixed2 (summary_distance summary / 1000)%float;
  Some (d ++ " km")%string.

Definition duration_text (summary : Summary) : option string :=
  t ← Number_toString (Math_round (summary_duration summary / 60)%float);
  Some (t ++ " min")%string.

(** ** First revision (lines 1-493): spacing check, then quota guard *)

Module Throttled.
Section Home.

(** [process.env.EXPO_PUBLIC_ORS_API_KEY]. *)
Variable ORS_API_KEY : option string.

(** Line 35; the source sets it to [false]. *)
Variable DISABLE_QUOTA_GUARD : bool.

Definition REQUEST_INTERVAL_MS : Z := 15000.

(** The body handed to [axios.post] (lines 124-129). *)
Definition request_body (startLat startLng endLat endLng : float)
    : RequestBody :=
  {| coordinates :=
       [wire_position startLat startLng; wire_position endLat endLng];
     preference := None;
     geometry_simplify := None;
     extra_info := None |}.

(** [fetchRouteFromPoints] up to its [await] (lines 96-136).  [now] is
    what [Date.now()] returns at line 107. *)
Definition fetchRouteFromPoints (now : Z)
    (startLat startLng endLat endLng : float) (s : State)
    : Decision * list Effect * State :=
  if negb (truthy ORS_API_KEY) then
    (MissingCredential, [console_error "ORS API key missing"], s)
  else if (now - lastRequestTimeRef s <? REQUEST_INTERVAL_MS)%Z then
    (RejectedTooSoon, [], s)
  else if negb DISABLE_QUOTA_GUARD
          && (SAFETY_LIMIT <=? requestCountRef s)%Z then
    (RejectedQuotaExceeded,
     [console_warn "75% quota reached. Calls blocked."], s)
  else
    let s := set_lastRequestTimeRef now s in
    let s := set_requestCountRef (requestCountRef s + 1)%Z s in
    (AdmittedWith None,
     [axios_post directions_url
        (request_body startLat startLng endLat endLng)
        (default "" ORS_API_KEY) None],
     s).

(** The [catch] clause (lines 153-155). *)
Definition catch (error : JsError) (s : State) : list Effect * State :=
  ([console_log "Route fetch failed:" error], s).

(** The rest of [fetchRouteFromPoints], run when the awaited promise
    settles (lines 138-155).  [None]: the response holds a position
    with fewer than two entries or a summary whose rendering is not
    modelled. *)
Definition fetchRouteFromPoints_settled (r : AxiosResult) (s : State)
    : option (list Effect * State) :=
  match r with
  | rejected error => Some (catch error s)
  | resolved features =>
      match features !! 0 with
      | None => Some (catch TypeError s)
      | Some feature =>
          match geometry_coordinates feature with
          | None => Some (catch TypeError s)
          | Some cs =>
              coords ← mapM decode_position cs;
              match properties_summary feature with
              | None => Some (catch TypeError s)
              | Some summary =>
                  d ← distance_text summary;
                  t ← duration_text summary;
                  let s := setDistance (Some d) s in
                  let s := setDuration (Some t) s in
                  Some ([], setRouteCoords coords s)
              end
          end
      end
  end.

(** [handleMapPress] (lines 37-65).  The first component is the
    decision of the [fetchRouteFromPoints] call it makes, if any. *)
Definition handleMapPress (now : Z) (event : Coordinate) (s : State)
    : option Decision * list Effect * State :=
  let point :=
    {| latitude := latitude event; longitude := longitude event |} in
  match startPoint s with
  | None =>
      let s := setStartPoint (Some point) s in
      let s := setRouteCoords [] s in
      let s := setDistance None s in
      (None, [], setDuration None s)
  | Some start =>
      match endPoint s with
      | None =>
          let s := setEndPoint (Some point) s in
          let '(d, es, s) :=
            fetchRouteFromPoints now (latitude start) (longitude start)
              (latitude point) (longitude point) s in
          (Some d, es, s)
      | Some _ =>
          let s := setStartPoint (Some point) s in
          let s := setEndPoint None s in
          let s := setRouteCoords [] s in
          let s := setDistance None s in
          (None, [], setDuration None s)
      end
  end.

(** A run of [fetchRouteFromPoints] calls, each with its own reading of
    the clock and its own pair of points; the log keeps the clock
    reading, the decision and the effects of every call. *)
Fixpoint calls (cs : list (Z * Coordinate * Coordinate)) (s : State)
    : list (Z * Decision * list Effect) * State :=
  match cs with
  | [] => ([], s)
  | (now, a, b) :: rest =>
      let '(d, es, s1) :=
        fetchRouteFromPoints now (latitude a) (longitude a)
          (latitude b) (longitude b) s in
      let '(log, s2) := calls rest s1 in
      ((now, d, es) :: log, s2)
  end.

End Home.
End Throttled.

(** ** Second revision (lines 494-1018): abort the previous request, then
       quota guard; no spacing check *)

Module Cancelling.
Section Home.

Variable ORS_API_KEY : option string.

(** Line 528; the source sets it to [false]. *)
Variable DISABLE_QUOTA_GUARD : bool.

(** [controller.abort()]: sets [signal.aborted] of controller [c]. *)
Definition abort (c : nat) (s : State) : State :=
  set_controllers (<[c := true]> (controllers s)) s.

(** [controller.signal.aborted]. *)
Definition aborted (c : nat) (s : State) : bool :=
  default false (controllers s !! c).

(** The body handed to [axios.post] (lines 623-631). *)
Definition request_body (startLat startLng endLat endLng : float)
    : RequestBody :=
  {| coordinates :=
       [wire_position startLat startLng; wire_position endLat endLng];
     preference := Some "fastest";
     geometry_simplify := Some false;
     extra_info := Some ["waytype"; "surface"] |}.

(** [fetchRouteFromPoints] up to its [await] (lines 592-639).
    [new AbortController()] allocates the next free heap entry. *)
Definition fetchRouteFromPoints
    (startLat startLng endLat endLng : float) (s : State)
    : Decision * list Effect * State :=
  if negb (truthy ORS_API_KEY) then
    (MissingCredential, [console_error "ORS API key missing"], s)
  else
    let s :=
      match cancelTokenRef s with
      | Some previous => abort previous s
      | None => s
      end in
    if negb DISABLE_QUOTA_GUARD
       && (SAFETY_LIMIT <=? requestCountRef s)%Z then
      (RejectedQuotaExceeded,
       [console_warn "75% quota reached. Calls blocked."], s)
    else
      let controller := length (controllers s) in
      let s := set_controllers (controllers s ++ [false]) s in
      let s := set_cancelTokenRef (Some controller) s in
      let s := set_requestCountRef (requestCountRef s + 1)%Z s in
      (AdmittedWith (Some controller),
       [axios_post directions_url
          (request_body startLat startLng endLat endLng)
          (default "" ORS_API_KEY) (Some controller)],
       s).

(** The [catch] clause (lines 674-680). *)
Definition catch (error : JsError) (s : State) : list Effect * State :=
  if String.eqb (error_name error) "CanceledError"
     || match error_code error with
        | Some code => String.eqb code "ERR_CANCELED"
        | None => false
        end
  then ([], s)
  else ([console_log "Route fetch failed:" error], s).

(** The rest of [fetchRouteFromPoints], run when the awaited promise
    settles (lines 641-680).  [controller] is the closure's own
    [AbortController]; the body never reads it.  [None] as in the
    first revision. *)
Definition fetchRouteFromPoints_settled (controller : nat)
    (r : AxiosResult) (s : State) : option (list Effect * State) :=
  match r with
  | rejected error => Some (catch error s)
  | resolved features =>
      match features !! 0 with
      | None => Some (catch TypeError s)
      | Some feature =>
          match geometry_coordinates feature with
          | None => Some (catch TypeError s)
          | Some cs =>
              coords ← mapM decode_position cs;
              match smoothCoords coords with
              | None => Some (catch TypeError s)
              | Some smooth =>
                  match properties_summary feature with
                  | None => Some (catch TypeError s)
                  | Some summary =>
                      d ← distance_text summary;
                      t ← duration_text summary;
                      let s := setDistance (Some d) s in
                      let s := setDuration (Some t) s in
                      Some ([], setRouteCoords smooth s)
                  end
              end
          end
      end
  end.

(** [handleMapPress] (lines 530-558). *)
Definition handleMapPress (event : Coordinate) (s : State)
    : option Decision * list Effect * State :=
  let point :=
    {| latitude := latitude event; longitude := longitude event |} in
  match startPoint s with
  | None =>
      let s := setStartPoint (Some point) s in
      let s := setRouteCoords [] s in
      let s := setDistance None s in
      (None, [], setDuration None s)
  | Some start =>
      match endPoint s with
      | None =>
          let s := setEndPoint (Some point) s in
          let '(d, es, s) :=
            fetchRouteFromPoints (latitude start) (longitude start)
              (latitude point) (longitude point) s in
          (Some d, es, s)
      | Some _ =>
          let s := setStartPoint (Some point) s in
          let s := setEndPoint None s in
          let s := setRouteCoords [] s in
          let s := setDistance None s in
          (None, [], setDuration None s)
      end
  end.

(** A run of [fetchRouteFromPoints] calls; the clock reading of each
    call is kept in the log, the function itself never reads it. *)
Fixpoint calls (cs : list (Z * Coordinate * Coordinate)) (s : State)
    : list (Z * Decision * list Effect) * State :=
  match cs with
  | [] => ([], s)
  | (now, a, b) :: rest =>
      let '(d, es, s1) :=
        fetchRouteFromPoints (latitude a) (longitude a)
          (latitude b) (longitude b) s in
      let '(log, s2) := calls rest s1 in
      ((now, d, es) :: log, s2)
  end.

End Home.
End Cancelling.

(** ** Reference definitions the theorems compare the code with *)

(** The polyline that follows a point [p]: before every further point, the
    midpoint of it and its predecessor. *)
Fixpoint midpoints_after (p : Coordinate) (l : list Coordinate)
    : list Coordinate :=
  match l with
  | [] => []
  | q :: l' => midpoint p q :: q :: midpoints_after q l'
  end.

Local Set Warnings "-inexact-float".

(** The route session states of the design, and the reading of the two
    nullable cells [startPoint] and [endPoint] as one of them.  An end
    point without a start point is none of the three. *)
Inductive RouteSelection : Type :=
| Idle
| StartChosen (start : Coordinate)
| RouteReady (start finish : Coordinate).

Definition selection (s : State) : option RouteSelection :=
  match startPoint s, endPoint s with
  | None, None => Some Idle
  | Some a, None => Some (StartChosen a)
  | Some a, Some b => Some (RouteReady a b)
  | None, Some _ => None
  end.

(** The transitions of the three-state machine as the design words them. *)
Definition tap (p : Coordinate) (sel : RouteSelection) : RouteSelection :=
  match sel with
  | Idle => StartChosen p
  | StartChosen a => RouteReady a p
  | RouteReady _ _ => StartChosen p
  end.

(** No route artifact is held. *)
Definition no_route (s : State) : Prop :=
  routeCoords s = [] /\ distance s = None /\ duration s = None.

(** A [cancelTokenRef] that is set points into the controller heap. *)
Definition heap_ok (s : State) : Prop :=
  forall c, cancelTokenRef s = Some c -> c < length (controllers s).

(** The response of the directions service for a polyline and a summary. *)
Definition response_for (polyline : list Coordinate) (summary : Summary)
    : AxiosResult :=
  resolved
    [{| geometry_coordinates :=
          Some (map (fun c => wire_position (latitude c) (longitude c))
                  polyline);
        properties_summary := Some summary |}].

(** Two points of Bengaluru and a credential, for the scenarios below. *)
Definition majestic : Coordinate :=
  {| latitude := 12.9766; longitude := 77.5713 |}.

Definition koramangala : Coordinate :=
  {| latitude := 12.9352; longitude := 77.6245 |}.

Definition some_key : option string := Some "test-key".

(** [n] route requests, one every [REQUEST_INTERVAL_MS] after the clock
    reading [t0]. *)
Definition spaced_calls (t0 : Z) (n : nat)
    : list (Z * Coordinate * Coordinate) :=
  map (fun i => ((t0 + 15000 * i)%Z, majestic, koramangala))
    (seqZ 1 (Z.of_nat n)).

(** The component after 1500 admitted requests, in either revision. *)
Definition throttled_exhausted : State :=
  snd (Throttled.calls some_key false (spaced_calls 1700000000000 1500)
         initial).

Definition cancelling_exhausted : State :=
  snd (Cancelling.calls some_key false (spaced_calls 1700000000000 1500)
         initial).

(** The decision is an admission. *)
Definition is_admission (d : Decision) : bool :=
  match d with
  | AdmittedWith _ => true
  | _ => false
  end.

(** What a run logs once the quota guard has closed: in the first
    revision the spacing check still answers first. *)
Definition throttled_exhausted_log (last : Z)
    (cs : list (Z * Coordinate * Coordinate))
    : list (Z * Decision * list Effect) :=
  map (fun '(now, _, _) =>
         if (now - last <? 15000)%Z then (now, RejectedTooSoon, [])
         else (now, RejectedQuotaExceeded,
               [console_warn "75% quota reached. Calls blocked."]))
    cs.

Definition cancelling_exhausted_log
    (cs : list (Z * Coordinate * Coordinate))
    : list (Z * Decision * list Effect) :=
  map (fun '(now, _, _) =>
         (now, RejectedQuotaExceeded,
          [console_warn "75% quota reached. Calls blocked."]))
    cs.




(** ** The rest of [Home]: location fixes, what is rendered, event dispatch *)

(** The [Region] handed to [MapView] (camera moves themselves are not
    modelled). *)
Record Region : Type := mkRegion {
  region_latitude : float;
  region_longitude : float;
  latitudeDelta : float;
  longitudeDelta : float
}.

(** [location.coords], as far as the watcher's callback reads it;
    [accuracy] is [number | null]. *)
Record LocationObject : Type := mkLocationObject {
  coords_latitude : float;
  coords_longitude : float;
  coords_accuracy : option float
}.

(** JavaScript truthiness of a Number: 0, -0 and NaN are falsy. *)
Definition truthy_number (x : float) : bool :=
  negb (PrimFloat.is_zero x || PrimFloat.is_nan x).

(** Truthiness of a cell that holds an object or null. *)
Definition present {A : Type} (cell : option A) : bool :=
  match cell with
  | Some _ => true
  | None => false
  end.

Definition setUserLocation (v : option Coordinate) (s : State) : State :=
  mkState (routeCoords s) (startPoint s) (endPoint s) (distance s)
    (duration s) v (requestCountRef s) (lastRequestTimeRef s)
    (cancelTokenRef s) (controllers s).

(** The whole component: the cells and refs of [State] and the [region]
    cell (line 21 and line 514). *)
Record Home : Type := mkHome {
  cells : State;
  region : option Region
}.

Definition with_cells (s : State) (h : Home) : Home :=
  {| cells := s; region := region h |}.

(** The component as it mounts. *)
Definition mounted : Home := {| cells := initial; region := None |}.

(** The [Region] both location callbacks build (lines 85-90, 581-586). *)
Definition region_at (latitude longitude : float) : Region :=
  {| region_latitude := latitude; region_longitude := longitude;
     latitudeDelta := 0.01; longitudeDelta := 0.01 |}.

(** What [Home] returns (lines 187-304 and 712-829), without styles: the
    loading text while [region] is null, else the search bar, the
    optional button and card, the map with its markers and polyline and
    the instruction overlays. *)
Record MapScreen : Type := mkMapScreen {
  startInput : string;
  endInput : string;
  useMyLocationButton : bool;
  routeCard : option (string * string);
  mapRegion : Region;
  startMarker : option Coordinate;
  endMarker : option Coordinate;
  polyline : option (list Coordinate);
  instructions : list string
}.

Inductive Rendered : Type :=
| LoadingScreen (text : string)
| Screen (m : MapScreen).

(** [routeCard] holds the duration and the distance the card shows; it is
    rendered when both strings are truthy. *)
Definition render (h : Home) : Rendered :=
  match region h with
  | None => LoadingScreen "Getting Location..."
  | Some r =>
      let s := cells h in
      Screen
        {| startInput :=
             if present (startPoint s) then "Start location selected"
             else "";
           endInput :=
             if present (endPoint s) then "Destination selected" else "";
           useMyLocationButton := negb (present (startPoint s));
           routeCard :=
             match distance s, duration s with
             | Some d, Some t =>
                 if truthy (Some d) && truthy (Some t) then Some (t, d)
                 else None
             | _, _ => None
             end;
           mapRegion := r;
           startMarker := startPoint s;
           endMarker := endPoint s;
           polyline :=
             if (0 <? length (routeCoords s))%nat then Some (routeCoords s)
             else None;
           instructions :=
             (if negb (present (startPoint s))
                 && negb (present (endPoint s))
              then ["Tap on the map to set your start location"] else [])
             ++ (if present (startPoint s)
                    && negb (present (endPoint s))
                 then ["Tap on the map to set your destination"] else []) |}
  end.

Module ThrottledHome.
Section Home.

Variable ORS_API_KEY : option string.
Variable DISABLE_QUOTA_GUARD : bool.

(** The callback of [watchPositionAsync] (lines 81-91). *)
Definition onLocation (location : LocationObject) (h : Home) : Home :=
  let latitude := coords_latitude location in
  let longitude := coords_longitude location in
  {| cells :=
       setUserLocation
         (Some {| latitude := latitude; longitude := longitude |}) (cells h);
     region := Some (region_at latitude longitude) |}.

(** What can happen to the mounted component.  [mapPress] carries the
    reading of the clock at the tap.  [requestSettled] may come at any
    time and with any result: the model does not track which promises
    are pending. *)
Inductive Event : Type :=
| locationUpdate (location : LocationObject)
| mapPress (now : Z) (coordinate : Coordinate)
| mapLongPress
| useMyLocationPress
| clearPress
| requestSettled (r : AxiosResult).

(** One event handled.  A press on an element that is not rendered
    cannot happen and is skipped.  [None] as in
    [fetchRouteFromPoints_settled]. *)
Definition dispatch (ev : Event) (h : Home) : option (list Effect * Home) :=
  match ev with
  | locationUpdate location => Some ([], onLocation location h)
  | requestSettled r =>
      '(es, s) ← Throttled.fetchRouteFromPoints_settled r (cells h);
      Some (es, with_cells s h)
  | mapPress now coordinate =>
      match render h with
      | LoadingScreen _ => Some ([], h)
      | Screen _ =>
          let '(_, es, s) :=
            Throttled.handleMapPress ORS_API_KEY DISABLE_QUOTA_GUARD now
              coordinate (cells h) in
          Some (es, with_cells s h)
      end
  | mapLongPress =>
      match render h with
      | LoadingScreen _ => Some ([], h)
      | Screen _ => Some ([], with_cells (handleClearAll (cells h)) h)
      end
  | useMyLocationPress =>
      match render h with
      | LoadingScreen _ => Some ([], h)
      | Screen m =>
          if useMyLocationButton m
          then Some ([], with_cells (handleUseMyLocation (cells h)) h)
          else Some ([], h)
      end
  | clearPress =>
      match render h with
      | LoadingScreen _ => Some ([], h)
      | Screen m =>
          match routeCard m with
          | Some _ => Some ([], with_cells (handleClearAll (cells h)) h)
          | None => Some ([], h)
          end
      end
  end.

Fixpoint run (evs : list Event) (h : Home) : option (list Effect * Home) :=
  match evs with
  | [] => Some ([], h)
  | ev :: rest =>
      '(es1, h1) ← dispatch ev h;
      '(es2, h2) ← run rest h1;
      Some (es1 ++ es2, h2)
  end.

(** The clock readings of the taps of a run. *)
Definition press_times (evs : list Event) : list Z :=
  omap (fun ev => match ev with
                  | mapPress now _ => Some now
                  | _ => None
                  end) evs.

End Home.
End ThrottledHome.

Module CancellingHome.
Section Home.

Variable ORS_API_KEY : option string.
Variable DISABLE_QUOTA_GUARD : bool.

(** The callback of [watchPositionAsync] (lines 575-587): a fix whose
    accuracy is truthy and above 30 is ignored. *)
Definition onLocation (location : LocationObject) (h : Home) : Home :=
  let latitude := coords_latitude location in
  let longitude := coords_longitude location in
  if match coords_accuracy location with
     | Some accuracy => truthy_number accuracy && (30 <? accuracy)%float
     | None => false
     end
  then h
  else
    {| cells :=
         setUserLocation
           (Some {| latitude := latitude; longitude := longitude |})
           (cells h);
       region := Some (region_at latitude longitude) |}.

(** As in the first revision; [requestSettled] names the controller of
    the request that settles. *)
Inductive Event : Type :=
| locationUpdate (location : LocationObject)
| mapPress (coordinate : Coordinate)
| mapLongPress
| useMyLocationPress
| clearPress
| requestSettled (controller : nat) (r : AxiosResult).

Definition dispatch (ev : Event) (h : Home) : option (list Effect * Home) :=
  match ev with
  | locationUpdate location => Some ([], onLocation location h)
  | requestSettled controller r =>
      '(es, s) ←
        Cancelling.fetchRouteFromPoints_settled controller r (cells h);
      Some (es, with_cells s h)
  | mapPress coordinate =>
      match render h with
      | LoadingScreen _ => Some ([], h)
      | Screen _ =>
          let '(_, es, s) :=
            Cancelling.handleMapPress ORS_API_KEY DISABLE_QUOTA_GUARD
              coordinate (cells h) in
          Some (es, with_cells s h)
      end
  | mapLongPress =>
      match render h with
      | LoadingScreen _ => Some ([], h)
      | Screen _ => Some ([], with_cells (handleClearAll (cells h)) h)
      end
  | useMyLocationPress =>
      match render h with
      | LoadingScreen _ => Some ([], h)
      | Screen m =>
          if useMyLocationButton m
          then Some ([], with_cells (handleUseMyLocation (cells h)) h)
          else Some ([], h)
      end
  | clearPress =>
      match render h with
      | LoadingScreen _ => Some ([], h)
      | Screen m =>
          match routeCard m with
          | Some _ => Some ([], with_cells (handleClearAll (cells h)) h)
          | None => Some ([], h)
          end
      end
  end.

Fixpoint run (evs : list Event) (h : Home) : option (list Effect * Home) :=
  match evs with
  | [] => Some ([], h)
  | ev :: rest =>
      '(es1, h1) ← dispatch ev h;
      '(es2, h2) ← run rest h1;
      Some (es1 ++ es2, h2)
  end.

End Home.
End CancellingHome.

(** The [AbortController]s the requests among some effects carry. *)
Definition signals (es : list Effect) : list (option nat) :=
  omap (fun e => match e with
                 | axios_post _ _ _ signal => Some signal
                 | _ => None
                 end) es.

(** The refs and the selection cells of two states agree: everything but
    the route artifact. *)
Definition same_but_route (s s' : State) : Prop :=
  startPoint s' = startPoint s /\ endPoint s' = endPoint s
  /\ userLocation s' = userLocation s
  /\ requestCountRef s' = requestCountRef s
  /\ lastRequestTimeRef s' = lastRequestTimeRef s
  /\ cancelTokenRef s' = cancelTokenRef s
  /\ controllers s' = controllers s.

(** The route artifact is held whole or not at all: either there is no
    distance, no duration and no polyline, or both display strings are
    set and non-empty. *)
Definition route_whole (s : State) : Prop :=
  no_route s \/ (truthy (distance s) = true /\ truthy (duration s) = true).

(** A request as [fetchRouteFromPoints] builds it for a configured key:
    the directions endpoint, the key as Authorization, two positions of
    two numbers each. *)
Definition well_formed_request (key : option string) (e : Effect) : Prop :=
  match e with
  | axios_post url body authorization _ =>
      url = directions_url
      /\ truthy (Some authorization) = true /\ key = Some authorization
      /\ exists a b c d, coordinates body = [[a; b]; [c; d]]
  | _ => True
  end.

(** The four refs of two states agree. *)
Definition same_refs (s s' : State) : Prop :=
  requestCountRef s' = requestCountRef s
  /\ lastRequestTimeRef s' = lastRequestTimeRef s
  /\ cancelTokenRef s' = cancelTokenRef s
  /\ controllers s' = controllers s.

(** The state after lines 603-606 of the second revision. *)
Definition abort_current (s : State) : State :=
  match cancelTokenRef s with
  | Some previous => Cancelling.abort previous s
  | None => s
  end.

(** The bookkeeping of the second revision is in step: the counter is the
    number of controllers created, the current token is the controller
    created last, and every earlier controller has been aborted. *)
Definition controllers_ok (s : State) : Prop :=
  requestCountRef s = Z.of_nat (length (controllers s))
  /\ cancelTokenRef s
     = match length (controllers s) with
       | 0 => None
       | S n => Some n
       end
  /\ forall c, S c < length (controllers s) -> controllers s !! c = Some true.

(** A session on the map: a location fix, then four taps. *)
Definition session_fix : LocationObject :=
  {| coords_latitude := 12.9716; coords_longitude := 77.5946;
     coords_accuracy := Some 5%float |}.

Definition cancelling_session : list CancellingHome.Event :=
  [CancellingHome.locationUpdate session_fix;
   CancellingHome.mapPress majestic;
   CancellingHome.mapPress koramangala;
   CancellingHome.mapPress koramangala;
   CancellingHome.mapPress majestic].

Definition throttled_session : list ThrottledHome.Event :=
  [ThrottledHome.locationUpdate session_fix;
   ThrottledHome.mapPress 1700000000000 majestic;
   ThrottledHome.mapPress 1700000004000 koramangala;
   ThrottledHome.mapPress 1700000009000 koramangala;
   ThrottledHome.mapPress 1700000030000 majestic].

(** An event that cannot take the second revision off the loading
    screen: a press, or a location fix whose accuracy is above 30. *)
Definition keeps_loading (ev : CancellingHome.Event) : Prop :=
  match ev with
  | CancellingHome.locationUpdate location =>
      exists accuracy,
        coords_accuracy location = Some accuracy
        /\ (30 <? accuracy)%float = true
  | CancellingHome.requestSettled _ _ => False
  | _ => True
  end.

(** The five cells the screen is drawn from agree. *)
Definition same_view (s s' : State) : Prop :=
  startPoint s' = startPoint s /\ endPoint s' = endPoint s
  /\ routeCoords s' = routeCoords s
  /\ distance s' = distance s /\ duration s' = duration s.

(** The selection is one of the three states and the route artifact is
    whole. *)
Definition consistent (s : State) : Prop :=
  (exists sel, selection s = Some sel) /\ route_whole s.

(** What the map screen shows of a selection: the instruction overlay,
    the "Use my location" button, the two markers and the two inputs. *)
Definition screen_matches (sel : RouteSelection) (m : MapScreen) : Prop :=
  match sel with
  | Idle =>
      instructions m = ["Tap on the map to set your start location"]
      /\ useMyLocationButton m = true
      /\ startMarker m = None /\ endMarker m = None
      /\ startInput m = "" /\ endInput m = ""
  | StartChosen a =>
      instructions m = ["Tap on the map to set your destination"]
      /\ useMyLocationButton m = false
      /\ startMarker m = Some a /\ endMarker m = None
      /\ startInput m = "Start location selected" /\ endInput m = ""
  | RouteReady a b =>
      instructions m = []
      /\ useMyLocationButton m = false
      /\ startMarker m = Some a /\ endMarker m = Some b
      /\ startInput m = "Start location selected"
      /\ endInput m = "Destination selected"
  end.

(** ** The navigation screen [TabTwoScreen] (attached to README.md,
       lines 238-394) *)

Module Navigation.

(** [ORSStep]; [step_distance] is its [distance] field. *)
Record ORSStep : Type := mkORSStep {
  instruction : string;
  step_distance : float
}.

(** [properties.segments[i]]. *)
Record Segment : Type := mkSegment {
  segment_steps : option (list ORSStep)
}.

(** One entry of [response.data.features], as far as [fetchRoute] reads
    it.  A field the response lacks is [None]. *)
Record RouteFeature : Type := mkRouteFeature {
  route_coordinates : option (list (list float));
  route_segments : option (list Segment)
}.

Inductive Response : Type :=
| resolved (features : list RouteFeature)
| rejected (error : JsError).

(** Calls on the environment; the Authorization header is whatever
    [ORS_API_KEY] holds, [undefined] included. *)
Inductive Call : Type :=
| console_error (message : string)
| console_log (error : JsError)
| axios_post (url : string) (positions : list (list float))
    (authorization : option string).

(** The [useState] cells (lines 266-269).  [steps] is [None] once
    [setSteps] has stored [undefined]. *)
Record Cells : Type := mkCells {
  region : option Region;
  routeCoords : list Coordinate;
  steps : option (list ORSStep);
  currentStepIndex : nat
}.

Definition mounted : Cells :=
  {| region := None; routeCoords := []; steps := Some [];
     currentStepIndex := 0 |}.

(** Lines 261-264. *)
Definition destination : Coordinate :=
  {| latitude := 12.9716; longitude := 77.5946 |}.

Section Screen.

Variable ORS_API_KEY : option string.

(** What the module does when it is loaded (lines 245-249). *)
Definition load : list Call :=
  if negb (truthy ORS_API_KEY)
  then [console_error
          "❌ OpenRouteService API key is missing. Check your .env file."]
  else [].

(** [fetchRoute] up to its [await] (lines 300-315). *)
Definition fetchRoute (lat lng : float) : list Call :=
  [axios_post directions_url
     [[lng; lat]; [longitude destination; latitude destination]]
     ORS_API_KEY].

(** The rest of [fetchRoute] (lines 317-331).  [None]: a position with
    fewer than two entries. *)
Definition fetchRoute_settled (r : Response) (s : Cells)
    : option (list Call * Cells) :=
  match r with
  | rejected err => Some ([console_log err], s)
  | resolved features =>
      match features !! 0 with
      | None => Some ([console_log TypeError], s)
      | Some feature =>
          match route_coordinates feature with
          | None => Some ([console_log TypeError], s)
          | Some cs =>
              coords ← mapM decode_position cs;
              match route_segments feature with
              | None => Some ([console_log TypeError], s)
              | Some segments =>
                  match segments !! 0 with
                  | None => Some ([console_log TypeError], s)
                  | Some segment =>
                      Some ([],
                            {| region := region s;
                               routeCoords := coords;
                               steps := segment_steps segment;
                               currentStepIndex := currentStepIndex s |})
                  end
              end
          end
      end
  end.

(** The callback of [watchPositionAsync] (lines 283-294). *)
Definition onLocation (location : LocationObject) (s : Cells)
    : list Call * Cells :=
  let latitude := coords_latitude location in
  let longitude := coords_longitude location in
  (fetchRoute latitude longitude,
   {| region := Some (region_at latitude longitude);
      routeCoords := routeCoords s;
      steps := steps s;
      currentStepIndex := currentStepIndex s |}).

(** [getNextTurnDistance] (lines 334-337): [inl] is the TypeError that
    indexing [undefined] raises, [inr None] is [null]. *)
Definition getNextTurnDistance (s : Cells) : JsError + option float :=
  match steps s with
  | None => inl TypeError
  | Some l =>
      match l !! currentStepIndex s with
      | None => inr None
      | Some step => inr (Some (Math_round (step_distance step)))
      end
  end.

Inductive Event : Type :=
| locationUpdate (location : LocationObject)
| requestSettled (r : Response).

Definition dispatch (ev : Event) (s : Cells) : option (list Call * Cells) :=
  match ev with
  | locationUpdate location => Some (onLocation location s)
  | requestSettled r => fetchRoute_settled r s
  end.

Fixpoint run (evs : list Event) (s : Cells) : option (list Call * Cells) :=
  match evs with
  | [] => Some ([], s)
  | ev :: rest =>
      '(es1, s1) ← dispatch ev s;
      '(es2, s2) ← run rest s1;
      Some (es1 ++ es2, s2)
  end.

End Screen.

Definition is_request (e : Call) : bool :=
  match e with
  | axios_post _ _ _ => true
  | _ => false
  end.

(** The requests among some calls. *)
Definition requests (es : list Call) : list Call :=
  filter (fun e => is_request e = true) es.

(** The location fixes among some events. *)
Definition fixes (evs : list Event) : list LocationObject :=
  omap (fun ev => match ev with
                  | locationUpdate location => Some location
                  | requestSettled _ => None
                  end) evs.

End Navigation.

(** The responses the continuation is not modelled on: the first feature
    has a coordinate list and either one of its positions has fewer than
    two entries, or its summary has a distance or a duration whose
    rendering is not modelled. *)
Definition outside_model (r : AxiosResult) : Prop :=
  exists feature rest cs,
    r = resolved (feature :: rest)
    /\ geometry_coordinates feature = Some cs
    /\ (mapM decode_position cs = None
        \/ exists summary,
             properties_summary feature = Some summary
             /\ (distance_text summary = None
                 \/ duration_text summary = None)).

(** The response is stored: its first feature has a coordinate list that
    decodes to [coords] and a summary that renders as [d] and [t]. *)
Definition stores (r : AxiosResult) (coords : list Coordinate)
    (d t : string) : Prop :=
  exists feature rest cs summary,
    r = resolved (feature :: rest)
    /\ geometry_coordinates feature = Some cs
    /\ mapM decode_position cs = Some coords
    /\ properties_summary feature = Some summary
    /\ distance_text summary = Some d
    /\ duration_text summary = Some t.

(** * Properties *)

(** ** Numbers and constants *)

Lemma SAFETY_LIMIT_value : SAFETY_LIMIT = 1500%Z.
Proof. vm_compute. reflexivity. Qed.

(** ** Wire format *)

Lemma Coordinate_eta (c : Coordinate) :
  {| latitude := latitude c; longitude := longitude c |} = c.
Proof. destruct c; reflexivity. Qed.

Lemma decode_wire_position (c : Coordinate) :
  decode_position (wire_position (latitude c) (longitude c)) = Some c.
Proof. destruct c; reflexivity. Qed.

Lemma mapM_decode_wire (polyline : list Coordinate) :
  mapM decode_position
    (map (fun c => wire_position (latitude c) (longitude c)) polyline)
  = Some polyline.
Proof.
  induction polyline as [|c l IH]; [reflexivity|].
  cbn [map mapM]. rewrite decode_wire_position. cbn.
  cbn in IH. rewrite IH. reflexivity.
Qed.

(** C8: a coordinate put on the wire as [lng, lat] and decoded by the
    response decoder is the coordinate itself, and a wire pair [lon, lat]
    decoded and put back on the wire is the pair itself; the two positions
    of a request body decode to the start and end point of the call. *)
Theorem coordinate_wire_round_trip :
  (forall c : Coordinate,
      decode_position (wire_position (latitude c) (longitude c)) = Some c)
  /\ (forall lon lat : float,
        exists c, decode_position [lon; lat] = Some c
                  /\ latitude c = lat /\ longitude c = lon
                  /\ wire_position (latitude c) (longitude c) = [lon; lat])
  /\ (forall a b : Coordinate,
        mapM decode_position
          (coordinates (Throttled.request_body
                          (latitude a) (longitude a)
                          (latitude b) (longitude b))) = Some [a; b]
        /\ mapM decode_position
             (coordinates (Cancelling.request_body
                             (latitude a) (longitude a)
                             (latitude b) (longitude b))) = Some [a; b]).
Proof.
  split; [exact decode_wire_position|]. split.
  - intros lon lat. eexists. split; [reflexivity|]. cbn. auto.
  - intros [] []. split; reflexivity.
Qed.

(** ** Densification *)

Section Densify.

Variable coords : list Coordinate.

(** The callback handed to [flatMap] at lines 649-661. *)
Let callback (point : Coordinate) (index : nat) : option (list Coordinate) :=
  if Nat.eqb index 0 then Some [point]
  else prev ← coords !! (index - 1); Some [midpoint prev point; point].

Lemma flatMap_from_midpoints (l pre : list Coordinate) (p : Coordinate) :
  coords = pre ++ p :: l ->
  flatMap_from callback (S (length pre)) l = Some (midpoints_after p l).
Proof.
  revert pre p. induction l as [|q l IH]; intros pre p Hcoords.
  - reflexivity.
  - assert (callback q (S (length pre)) = Some [midpoint p q; q]) as Hcb.
    { unfold callback. cbn [Nat.eqb].
      replace (S (length pre) - 1) with (length pre) by lia.
      rewrite Hcoords, list_lookup_middle by reflexivity. reflexivity. }
    assert (flatMap_from callback (S (S (length pre))) l
            = Some (midpoints_after q l)) as Hrest.
    { rewrite <- (IH (pre ++ [p]) q).
      - rewrite length_app, Nat.add_1_r. reflexivity.
      - rewrite Hcoords, <- app_assoc. reflexivity. }
    cbn [flatMap_from midpoints_after]. rewrite Hcb, Hrest. reflexivity.
Qed.

End Densify.

Lemma smoothCoords_cons (x : Coordinate) (l : list Coordinate) :
  smoothCoords (x :: l) = Some (x :: midpoints_after x l).
Proof.
  unfold smoothCoords, flatMap. cbn [flatMap_from Nat.eqb].
  pose proof (flatMap_from_midpoints (x :: l) l [] x eq_refl) as H.
  cbn [length] in H. cbv zeta in H. rewrite H. reflexivity.
Qed.

Lemma length_midpoints_after (p : Coordinate) (l : list Coordinate) :
  length (midpoints_after p l) = 2 * length l.
Proof.
  revert p. induction l as [|q l IH]; intros p; cbn [midpoints_after length].
  - reflexivity.
  - rewrite IH. lia.
Qed.

Lemma lookup_even_midpoints (l : list Coordinate) (p : Coordinate) (i : nat) :
  (p :: midpoints_after p l) !! (2 * i) = (p :: l) !! i.
Proof.
  revert p i. induction l as [|q l IH]; intros p [|i].
  - reflexivity.
  - replace (2 * S i) with (S (S (2 * i))) by lia. reflexivity.
  - reflexivity.
  - replace (2 * S i) with (S (S (2 * i))) by lia.
    cbn [midpoints_after lookup list_lookup]. apply IH.
Qed.

Lemma lookup_odd_midpoints (l : list Coordinate) (p a b : Coordinate)
    (i : nat) :
  (p :: l) !! i = Some a -> (p :: l) !! S i = Some b ->
  (p :: midpoints_after p l) !! (2 * i + 1) = Some (midpoint a b).
Proof.
  revert p i. induction l as [|q l IH]; intros p i Ha Hb.
  - destruct i; discriminate.
  - destruct i as [|i].
    + cbn in Ha, Hb. injection Ha as <-. injection Hb as <-. reflexivity.
    + replace (2 * S i + 1) with (S (S (2 * i + 1))) by lia.
      cbn [midpoints_after lookup list_lookup]. apply IH; assumption.
Qed.

Lemma last_midpoints_after (l : list Coordinate) (p : Coordinate) :
  last (p :: midpoints_after p l) = last (p :: l).
Proof.
  revert p. induction l as [|q l IH]; intros p; [reflexivity|].
  cbn [midpoints_after]. rewrite !last_cons_cons. apply IH.
Qed.

(** C7, counterexample: the point [smoothCoords] puts between latitudes
    0.2 and 0.7 is the Number 0.44999999999999996, which is not the exact
    arithmetic mean of its two neighbours: in units of 2^-1074, twice its
    value differs from the sum of theirs. *)
Lemma midpoint_not_exact_mean :
  exists m ua ub um,
    smoothCoords [{| latitude := 0.2; longitude := 77.5 |};
                  {| latitude := 0.7; longitude := 77.5 |}]
    = Some [{| latitude := 0.2; longitude := 77.5 |};
            m;
            {| latitude := 0.7; longitude := 77.5 |}]
    /\ latitude m = ((0.2 + 0.7) / 2)%float
    /\ exact_units 0.2 = Some ua /\ exact_units 0.7 = Some ub
    /\ exact_units (latitude m) = Some um
    /\ (2 * um <> ua + ub)%Z.
Proof.
  eexists. eexists. eexists. eexists.
  split; [vm_compute; reflexivity|].
  split; [reflexivity|].
  split; [vm_compute; reflexivity|].
  split; [vm_compute; reflexivity|].
  split; [vm_compute; reflexivity|].
  vm_compute. discriminate.
Qed.

(** C7 as amended: for every non-empty polyline of length n,
    [smoothCoords] returns a polyline of length 2 * n - 1 whose first and
    last points are the input's, whose point at every even index 2 * i is
    the input's point i, and whose point at every odd index has as
    latitude the Number (a + b) / 2 computed in binary64 from the
    latitudes a and b of its two neighbours, and as longitude the same of
    their longitudes: the mean as floating point rounds it, not the exact
    mean. *)
Theorem smoothCoords_densifies (coords : list Coordinate)
    (Hne : coords <> []) :
  exists out,
    smoothCoords coords = Some out
    /\ length out = 2 * length coords - 1
    /\ head out = head coords
    /\ last out = last coords
    /\ (forall i, out !! (2 * i) = coords !! i)
    /\ (forall i p q,
          out !! (2 * i) = Some p -> out !! (2 * i + 2) = Some q ->
          exists m,
            out !! (2 * i + 1) = Some m
            /\ latitude m = ((latitude p + latitude q) / 2)%float
            /\ longitude m = ((longitude p + longitude q) / 2)%float).
Proof.
  destruct coords as [|x l]; [contradiction|].
  exists (x :: midpoints_after x l). split; [apply smoothCoords_cons|].
  split; [cbn [length]; rewrite length_midpoints_after; lia|].
  split; [reflexivity|].
  split; [apply last_midpoints_after|].
  split; [intros i; apply lookup_even_midpoints|].
  intros i p q Hp Hq.
  rewrite lookup_even_midpoints in Hp.
  replace (2 * i + 2) with (2 * S i) in Hq by lia.
  rewrite lookup_even_midpoints in Hq.
  exists (midpoint p q). split; [|split; reflexivity].
  apply lookup_odd_midpoints; assumption.
Qed.

Lemma smoothCoords_densifies_witness :
  [mkCoordinate 1 2; mkCoordinate 3 4] <> []
  /\ exists out,
       smoothCoords [mkCoordinate 1 2; mkCoordinate 3 4] = Some out
       /\ length out = 2 * length [mkCoordinate 1 2; mkCoordinate 3 4] - 1
       /\ head out = head [mkCoordinate 1 2; mkCoordinate 3 4]
       /\ last out = last [mkCoordinate 1 2; mkCoordinate 3 4]
       /\ (forall i, out !! (2 * i)
                     = [mkCoordinate 1 2; mkCoordinate 3 4] !! i)
       /\ (forall i p q,
             out !! (2 * i) = Some p -> out !! (2 * i + 2) = Some q ->
             exists m,
               out !! (2 * i + 1) = Some m
               /\ latitude m = ((latitude p + latitude q) / 2)%float
               /\ longitude m = ((longitude p + longitude q) / 2)%float).
Proof.
  split; [discriminate|].
  apply (smoothCoords_densifies [mkCoordinate 1 2; mkCoordinate 3 4]).
  discriminate.
Defined.

Lemma smoothCoords_total (coords : list Coordinate) :
  exists out, smoothCoords coords = Some out.
Proof.
  destruct coords as [|x l]; [exists []; reflexivity|].
  eexists. apply smoothCoords_cons.
Qed.

(** ** Display values *)

Lemma distance_text_12345 (duration_s : float) :
  distance_text {| summary_distance := 12345;
                   summary_duration := duration_s |} = Some "12.35 km".
Proof. vm_compute. reflexivity. Qed.

Lemma duration_text_1800 (distance_m : float) :
  duration_text {| summary_distance := distance_m;
                   summary_duration := 1800 |} = Some "30 min".
Proof. vm_compute. reflexivity. Qed.

(** C9: when the awaited request resolves with summary distance 12345 m
    and duration 1800 s, the continuation stores exactly "12.35 km" and
    "30 min" (in both revisions, whatever the state and the polyline); in
    particular so does the scenario start = (12.90, 77.59),
    end = (12.97, 77.59) run from the mounted component. *)
Theorem display_12345m_1800s :
  let summary := {| summary_distance := 12345; summary_duration := 1800 |} in
  (forall (s : State) (polyline : list Coordinate),
      Throttled.fetchRouteFromPoints_settled (response_for polyline summary) s
      = Some ([], setRouteCoords polyline
                    (setDuration (Some "30 min")
                       (setDistance (Some "12.35 km") s))))
  /\ (forall (s : State) (polyline : list Coordinate) (controller : nat),
        exists smooth,
          smoothCoords polyline = Some smooth
          /\ Cancelling.fetchRouteFromPoints_settled controller
               (response_for polyline summary) s
             = Some ([], setRouteCoords smooth
                           (setDuration (Some "30 min")
                              (setDistance (Some "12.35 km") s))))
  /\ (let a := {| latitude := 12.90; longitude := 77.59 |} in
      let b := {| latitude := 12.97; longitude := 77.59 |} in
      let key := Some "key" in
      let '(_, _, s1) := Throttled.handleMapPress key false 1700000000000 a initial in
      let '(d, es, s2) := Throttled.handleMapPress key false 1700000004000 b s1 in
      d = Some (AdmittedWith None)
      /\ es = [axios_post directions_url
                 (Throttled.request_body 12.90 77.59 12.97 77.59) "key" None]
      /\ exists s3,
           Throttled.fetchRouteFromPoints_settled
             (response_for [a; b] summary) s2 = Some ([], s3)
           /\ selection s3 = Some (RouteReady a b)
           /\ routeCoords s3 = [a; b]
           /\ distance s3 = Some "12.35 km"
           /\ duration s3 = Some "30 min").
Proof.
  intros summary. split; [|split].
  - intros s polyline. unfold response_for.
    cbn [Throttled.fetchRouteFromPoints_settled lookup list_lookup
           geometry_coordinates properties_summary].
    rewrite mapM_decode_wire. cbn [mbind option_bind].
    unfold summary. rewrite distance_text_12345, duration_text_1800.
    reflexivity.
  - intros s polyline controller.
    destruct (smoothCoords_total polyline) as [smooth Hsmooth].
    exists smooth. split; [exact Hsmooth|]. unfold response_for.
    cbn [Cancelling.fetchRouteFromPoints_settled lookup list_lookup
           geometry_coordinates properties_summary].
    rewrite mapM_decode_wire. cbn [mbind option_bind]. rewrite Hsmooth.
    unfold summary. rewrite distance_text_12345, duration_text_1800.
    reflexivity.
  - vm_compute. repeat split. eexists. repeat split.
Qed.

(** ** The synchronous prefix of [fetchRouteFromPoints] *)

(** Splits the guards of a prefix into their cases. *)
Ltac prefix_cases :=
  repeat match goal with
         | |- context [if ?b then _ else _] => destruct b eqn:?
         | |- context [match cancelTokenRef ?s with _ => _ end] =>
             destruct (cancelTokenRef s) eqn:?
         end.

(** C5: without a truthy API key, [fetchRouteFromPoints] returns at once
    by the missing-credential branch, for all coordinates and in both
    revisions: it logs the error, issues no request (the effects of the
    call hold no [axios_post]) and leaves the state as it was. *)
Theorem missing_credential_no_request (key : option string) (guard : bool)
    (Hkey : truthy key = false)
    (now : Z) (startLat startLng endLat endLng : float) (s : State) :
  (let '(d, es, s') :=
     Throttled.fetchRouteFromPoints key guard now
       startLat startLng endLat endLng s in
   d = MissingCredential /\ request_count es = 0 /\ s' = s
   /\ es = [console_error "ORS API key missing"])
  /\ (let '(d, es, s') :=
        Cancelling.fetchRouteFromPoints key guard
          startLat startLng endLat endLng s in
      d = MissingCredential /\ request_count es = 0 /\ s' = s
      /\ es = [console_error "ORS API key missing"]).
Proof.
  unfold Throttled.fetchRouteFromPoints, Cancelling.fetchRouteFromPoints.
  rewrite Hkey. cbn [negb]. repeat split.
Qed.

Lemma missing_credential_no_request_witness :
  truthy None = false
  /\ (let '(d, es, s') :=
        Throttled.fetchRouteFromPoints None false 1700000000000
          12.90 77.59 12.97 77.59 initial in
      d = MissingCredential /\ request_count es = 0 /\ s' = initial
      /\ es = [console_error "ORS API key missing"])
  /\ (let '(d, es, s') :=
        Cancelling.fetchRouteFromPoints None false
          12.90 77.59 12.97 77.59 initial in
      d = MissingCredential /\ request_count es = 0 /\ s' = initial
      /\ es = [console_error "ORS API key missing"]).
Proof.
  split; [reflexivity|].
  apply (missing_credential_no_request None false eq_refl).
Defined.

(** C6: a call of [fetchRouteFromPoints] that ends in an admission
    rejection returns normally and mutates nothing: in the first revision
    the state after the call is the state before it; in the second the
    request counter, the last-request time, the current token, the
    selection and the route artifact are the ones before the call.  No
    request is issued in either. *)
Theorem rejection_mutates_nothing (key : option string) (guard : bool)
    (now : Z) (startLat startLng endLat endLng : float) (s : State) :
  (let '(d, es, s') :=
     Throttled.fetchRouteFromPoints key guard now
       startLat startLng endLat endLng s in
   d = RejectedTooSoon \/ d = RejectedQuotaExceeded ->
   s' = s /\ request_count es = 0)
  /\ (let '(d, es, s') :=
        Cancelling.fetchRouteFromPoints key guard
          startLat startLng endLat endLng s in
      d = RejectedTooSoon \/ d = RejectedQuotaExceeded ->
      requestCountRef s' = requestCountRef s
      /\ lastRequestTimeRef s' = lastRequestTimeRef s
      /\ cancelTokenRef s' = cancelTokenRef s
      /\ startPoint s' = startPoint s /\ endPoint s' = endPoint s
      /\ routeCoords s' = routeCoords s
      /\ distance s' = distance s /\ duration s' = duration s
      /\ request_count es = 0).
Proof.
  unfold Throttled.fetchRouteFromPoints, Cancelling.fetchRouteFromPoints,
    Cancelling.abort.
  split; prefix_cases; intros [H|H]; try discriminate H;
    repeat split; cbn; auto.
Qed.

Lemma throttled_exhausted_refs :
  requestCountRef throttled_exhausted = 1500%Z
  /\ lastRequestTimeRef throttled_exhausted = 1700022500000%Z.
Proof. vm_compute. split; reflexivity. Qed.

Lemma cancelling_exhausted_refs :
  requestCountRef cancelling_exhausted = 1500%Z
  /\ cancelTokenRef cancelling_exhausted = Some 1499
  /\ length (controllers cancelling_exhausted) = 1500.
Proof. vm_compute. repeat split; reflexivity. Qed.

Lemma rejection_mutates_nothing_witness :
  (fst (fst (Throttled.fetchRouteFromPoints some_key false 1700022501000
               12.90 77.59 12.97 77.59 throttled_exhausted))
   = RejectedTooSoon
   /\ snd (Throttled.fetchRouteFromPoints some_key false 1700022501000
             12.90 77.59 12.97 77.59 throttled_exhausted)
      = throttled_exhausted)
  /\ (fst (fst (Cancelling.fetchRouteFromPoints some_key false
                  12.90 77.59 12.97 77.59 cancelling_exhausted))
      = RejectedQuotaExceeded
      /\ requestCountRef
           (snd (Cancelling.fetchRouteFromPoints some_key false
                   12.90 77.59 12.97 77.59 cancelling_exhausted))
         = requestCountRef cancelling_exhausted).
Proof.
  pose proof (rejection_mutates_nothing some_key false 1700022501000
                12.90 77.59 12.97 77.59 throttled_exhausted) as [H1 _].
  pose proof (rejection_mutates_nothing some_key false 0
                12.90 77.59 12.97 77.59 cancelling_exhausted) as [_ H2].
  split.
  - assert (fst (fst (Throttled.fetchRouteFromPoints some_key false
                        1700022501000 12.90 77.59 12.97 77.59
                        throttled_exhausted)) = RejectedTooSoon) as Hd
      by (vm_compute; reflexivity).
    split; [exact Hd|].
    destruct (Throttled.fetchRouteFromPoints some_key false 1700022501000
                12.90 77.59 12.97 77.59 throttled_exhausted)
      as [[d es] s'].
    apply H1. left. exact Hd.
  - assert (fst (fst (Cancelling.fetchRouteFromPoints some_key false
                        12.90 77.59 12.97 77.59 cancelling_exhausted))
            = RejectedQuotaExceeded) as Hd by (vm_compute; reflexivity).
    split; [exact Hd|].
    destruct (Cancelling.fetchRouteFromPoints some_key false
                12.90 77.59 12.97 77.59 cancelling_exhausted)
      as [[d es] s'].
    apply H2. right. exact Hd.
Defined.

(** ** Supersession in the second revision *)

Lemma aborted_abort (c : nat) (s : State) :
  c < length (controllers s) ->
  Cancelling.aborted c (Cancelling.abort c s) = true.
Proof.
  intros Hc. unfold Cancelling.aborted, Cancelling.abort.
  cbn [controllers set_controllers].
  rewrite list_lookup_insert_eq by exact Hc. reflexivity.
Qed.

(** C10: in the second revision a call that passes the credential check
    aborts the controller [cancelTokenRef] holds whatever the quota guard
    then decides; when the guard rejects the call, the previous request
    is aborted all the same, no request is issued and [cancelTokenRef]
    still holds the aborted controller. *)
Theorem abort_precedes_quota_guard (key : option string) (guard : bool)
    (startLat startLng endLat endLng : float) (s : State) (previous : nat)
    (Hkey : truthy key = true)
    (Hprevious : cancelTokenRef s = Some previous)
    (Hheap : previous < length (controllers s)) :
  let '(d, es, s') :=
    Cancelling.fetchRouteFromPoints key guard
      startLat startLng endLat endLng s in
  Cancelling.aborted previous s' = true
  /\ (guard = false -> (SAFETY_LIMIT <= requestCountRef s)%Z ->
      d = RejectedQuotaExceeded /\ request_count es = 0
      /\ cancelTokenRef s' = Some previous
      /\ requestCountRef s' = requestCountRef s).
Proof.
  unfold Cancelling.fetchRouteFromPoints. rewrite Hkey, Hprevious.
  cbn [negb]. pose proof (aborted_abort previous s Hheap) as Hab.
  destruct (negb guard && _)%bool eqn:Hguard.
  - split; [exact Hab|]. intros _ _. repeat split. exact Hprevious.
  - split.
    + unfold Cancelling.aborted in *. cbn [controllers set_controllers
        set_cancelTokenRef set_requestCountRef] in *.
      rewrite lookup_app_l; [exact Hab|].
      unfold Cancelling.abort. cbn [controllers set_controllers].
      rewrite length_insert. exact Hheap.
    + intros -> Hquota. exfalso. cbn [negb andb] in Hguard.
      apply Z.leb_gt in Hguard.
      unfold Cancelling.abort in Hguard.
      cbn [requestCountRef set_controllers] in Hguard. lia.
Qed.

Lemma abort_precedes_quota_guard_witness :
  (truthy some_key = true
   /\ cancelTokenRef cancelling_exhausted = Some 1499
   /\ 1499 < length (controllers cancelling_exhausted))
  /\ let '(d, es, s') :=
       Cancelling.fetchRouteFromPoints some_key false
         12.90 77.59 12.97 77.59 cancelling_exhausted in
     Cancelling.aborted 1499 s' = true
     /\ (false = false ->
         (SAFETY_LIMIT <= requestCountRef cancelling_exhausted)%Z ->
         d = RejectedQuotaExceeded /\ request_count es = 0
         /\ cancelTokenRef s' = Some 1499
         /\ requestCountRef s' = requestCountRef cancelling_exhausted).
Proof.
  assert (truthy some_key = true) as Hkey by reflexivity.
  assert (cancelTokenRef cancelling_exhausted = Some 1499) as Hprevious
    by (vm_compute; reflexivity).
  assert (1499 < length (controllers cancelling_exhausted)) as Hheap
    by (vm_compute; lia).
  split; [auto|].
  exact (abort_precedes_quota_guard some_key false 12.90 77.59 12.97 77.59
           cancelling_exhausted 1499 Hkey Hprevious Hheap).
Defined.

(** The heap invariant holds when the component mounts and every call of
    the prefix keeps it. *)
Lemma heap_ok_initial : heap_ok initial.
Proof. intros c Hc. discriminate Hc. Qed.

Lemma heap_ok_fetchRouteFromPoints (key : option string) (guard : bool)
    (startLat startLng endLat endLng : float) (s : State) :
  heap_ok s ->
  heap_ok (snd (Cancelling.fetchRouteFromPoints key guard
                  startLat startLng endLat endLng s)).
Proof.
  intros Hok. unfold Cancelling.fetchRouteFromPoints, Cancelling.abort.
  prefix_cases; cbn [snd]; intros c Hc; cbn in Hc |- *;
    try (rewrite ?length_insert; apply Hok; congruence).
  - injection Hc as <-. rewrite length_app. cbn. lia.
  - injection Hc as <-. rewrite length_app. cbn. lia.
Qed.

(** ** Route session state *)

Lemma selection_fetch_throttled (key : option string) (guard : bool)
    (now : Z) (startLat startLng endLat endLng : float) (s : State) :
  selection (snd (Throttled.fetchRouteFromPoints key guard now
                    startLat startLng endLat endLng s)) = selection s.
Proof.
  unfold Throttled.fetchRouteFromPoints. prefix_cases; reflexivity.
Qed.

Lemma selection_fetch_cancelling (key : option string) (guard : bool)
    (startLat startLng endLat endLng : float) (s : State) :
  selection (snd (Cancelling.fetchRouteFromPoints key guard
                    startLat startLng endLat endLng s)) = selection s.
Proof.
  unfold Cancelling.fetchRouteFromPoints. prefix_cases; reflexivity.
Qed.

Lemma handleClearAll_idle (s : State) :
  selection (handleClearAll s) = Some Idle /\ no_route (handleClearAll s).
Proof. repeat split. Qed.

(** C4: read through [selection], the handlers of the first revision are
    the three-state machine.  A tap at [p] moves the selection by [tap p]:
    from Idle to StartChosen p, from StartChosen a to RouteReady a p, from
    RouteReady back to StartChosen p.  The tap that completes the pair is
    the one that calls [fetchRouteFromPoints], on the start point and [p];
    the other two call nothing and leave no route artifact.  Clearing (the
    Clear button and the long press) gives Idle with no route artifact
    from any state. *)
Theorem route_session_state_machine (key : option string) (guard : bool)
    (now : Z) (p : Coordinate) (s : State) (sel : RouteSelection)
    (Hsel : selection s = Some sel) :
  (let '(fetched, es, s') := Throttled.handleMapPress key guard now p s in
   selection s' = Some (tap p sel)
   /\ match sel with
      | StartChosen a =>
          exists d s1,
            Throttled.fetchRouteFromPoints key guard now
              (latitude a) (longitude a) (latitude p) (longitude p)
              (setEndPoint (Some p) s) = (d, es, s1)
            /\ fetched = Some d /\ s' = s1
      | Idle | RouteReady _ _ => fetched = None /\ es = [] /\ no_route s'
      end)
  /\ selection (handleClearAll s) = Some Idle
  /\ no_route (handleClearAll s).
Proof.
  split; [|apply handleClearAll_idle].
  unfold Throttled.handleMapPress. rewrite Coordinate_eta.
  unfold selection in Hsel.
  destruct (startPoint s) as [a|] eqn:Hstart,
           (endPoint s) as [b|] eqn:Hend;
    inversion Hsel; subst sel; clear Hsel.
  - cbn. unfold selection. cbn. rewrite ?Hend. repeat split.
  - pose proof (selection_fetch_throttled key guard now
                  (latitude a) (longitude a) (latitude p) (longitude p)
                  (setEndPoint (Some p) s)) as Hkeep.
    destruct (Throttled.fetchRouteFromPoints key guard now
                (latitude a) (longitude a) (latitude p) (longitude p)
                (setEndPoint (Some p) s)) as [[d es] s1].
    cbn [snd] in Hkeep. split.
    + rewrite Hkeep. unfold selection. cbn. rewrite Hstart. reflexivity.
    + exists d, s1. repeat split.
  - cbn. unfold selection. cbn. rewrite ?Hend. repeat split.
Qed.

Lemma route_session_state_machine_witness :
  selection (setStartPoint (Some majestic) initial)
  = Some (StartChosen majestic)
  /\ (let '(fetched, es, s') :=
        Throttled.handleMapPress some_key false 1700000000000 koramangala
          (setStartPoint (Some majestic) initial) in
      selection s' = Some (RouteReady majestic koramangala)
      /\ fetched = Some (AdmittedWith None)).
Proof.
  split; [reflexivity|].
  pose proof (route_session_state_machine some_key false 1700000000000
                koramangala (setStartPoint (Some majestic) initial)
                (StartChosen majestic) eq_refl) as [H _].
  destruct (Throttled.handleMapPress some_key false 1700000000000
              koramangala (setStartPoint (Some majestic) initial))
    as [[fetched es] s'] eqn:Hpress.
  destruct H as [Hsel (d & s1 & Hfetch & -> & _)].
  split; [exact Hsel|].
  vm_compute in Hpress. injection Hpress as <- _ _. reflexivity.
Defined.

(** The remaining handlers keep the selection one of the three states:
    "Use my location" chooses a start, a settled request changes neither
    point. *)
Lemma selection_handleUseMyLocation (s : State) (sel : RouteSelection) :
  selection s = Some sel ->
  selection (handleUseMyLocation s)
  = Some (match userLocation s with
          | Some here => StartChosen here
          | None => sel
          end).
Proof.
  intros Hsel. unfold handleUseMyLocation.
  destruct (userLocation s); [reflexivity|exact Hsel].
Qed.

Lemma selection_settled_throttled (r : AxiosResult) (s s' : State)
    (es : list Effect) :
  Throttled.fetchRouteFromPoints_settled r s = Some (es, s') ->
  selection s' = selection s.
Proof.
  unfold Throttled.fetchRouteFromPoints_settled, Throttled.catch.
  intros H. repeat case_match; simplify_option_eq; reflexivity.
Qed.

Lemma selection_settled_cancelling (controller : nat) (r : AxiosResult)
    (s s' : State) (es : list Effect) :
  Cancelling.fetchRouteFromPoints_settled controller r s = Some (es, s') ->
  selection s' = selection s.
Proof.
  unfold Cancelling.fetchRouteFromPoints_settled, Cancelling.catch.
  intros H.
  repeat (case_match; simplify_option_eq); reflexivity.
Qed.

(** The second revision's handlers are the same machine. *)
Lemma route_session_state_machine_cancelling (key : option string)
    (guard : bool) (p : Coordinate) (s : State) (sel : RouteSelection)
    (Hsel : selection s = Some sel) :
  let '(fetched, es, s') := Cancelling.handleMapPress key guard p s in
  selection s' = Some (tap p sel)
  /\ match sel with
     | StartChosen a =>
         exists d s1,
           Cancelling.fetchRouteFromPoints key guard
             (latitude a) (longitude a) (latitude p) (longitude p)
             (setEndPoint (Some p) s) = (d, es, s1)
           /\ fetched = Some d /\ s' = s1
     | Idle | RouteReady _ _ => fetched = None /\ es = [] /\ no_route s'
     end.
Proof.
  unfold Cancelling.handleMapPress. rewrite Coordinate_eta.
  unfold selection in Hsel.
  destruct (startPoint s) as [a|] eqn:Hstart,
           (endPoint s) as [b|] eqn:Hend;
    inversion Hsel; subst sel; clear Hsel.
  - cbn. unfold selection. cbn. rewrite ?Hend. repeat split.
  - pose proof (selection_fetch_cancelling key guard
                  (latitude a) (longitude a) (latitude p) (longitude p)
                  (setEndPoint (Some p) s)) as Hkeep.
    destruct (Cancelling.fetchRouteFromPoints key guard
                (latitude a) (longitude a) (latitude p) (longitude p)
                (setEndPoint (Some p) s)) as [[d es] s1].
    cbn [snd] in Hkeep. split.
    + rewrite Hkeep. unfold selection. cbn. rewrite Hstart. reflexivity.
    + exists d, s1. repeat split.
  - cbn. unfold selection. cbn. rewrite ?Hend. repeat split.
Qed.

(** ** Runs of route requests: the quota guard *)

Lemma throttled_calls_cons (key : option string) (guard : bool) (now : Z)
    (a b : Coordinate) (rest : list (Z * Coordinate * Coordinate))
    (s : State) :
  Throttled.calls key guard ((now, a, b) :: rest) s
  = let r := Throttled.fetchRouteFromPoints key guard now
               (latitude a) (longitude a) (latitude b) (longitude b) s in
    ((now, fst (fst r), snd (fst r))
       :: fst (Throttled.calls key guard rest (snd r)),
     snd (Throttled.calls key guard rest (snd r))).
Proof.
  cbn [Throttled.calls].
  destruct (Throttled.fetchRouteFromPoints _ _ _ _ _ _ _ _) as [[d es] s1].
  cbn [fst snd].
  destruct (Throttled.calls key guard rest s1) as [log s2]. reflexivity.
Qed.

Lemma cancelling_calls_cons (key : option string) (guard : bool) (now : Z)
    (a b : Coordinate) (rest : list (Z * Coordinate * Coordinate))
    (s : State) :
  Cancelling.calls key guard ((now, a, b) :: rest) s
  = let r := Cancelling.fetchRouteFromPoints key guard
               (latitude a) (longitude a) (latitude b) (longitude b) s in
    ((now, fst (fst r), snd (fst r))
       :: fst (Cancelling.calls key guard rest (snd r)),
     snd (Cancelling.calls key guard rest (snd r))).
Proof.
  cbn [Cancelling.calls].
  destruct (Cancelling.fetchRouteFromPoints _ _ _ _ _ _ _) as [[d es] s1].
  cbn [fst snd].
  destruct (Cancelling.calls key guard rest s1) as [log s2]. reflexivity.
Qed.

Lemma throttled_fetch_exhausted (key : option string) (now : Z)
    (startLat startLng endLat endLng : float) (s : State) :
  truthy key = true -> (SAFETY_LIMIT <= requestCountRef s)%Z ->
  Throttled.fetchRouteFromPoints key false now
    startLat startLng endLat endLng s
  = if (now - lastRequestTimeRef s <? 15000)%Z
    then (RejectedTooSoon, [], s)
    else (RejectedQuotaExceeded,
          [console_warn "75% quota reached. Calls blocked."], s).
Proof.
  intros Hkey Hquota. unfold Throttled.fetchRouteFromPoints.
  rewrite Hkey. cbn [negb andb]. unfold Throttled.REQUEST_INTERVAL_MS.
  apply Z.leb_le in Hquota. rewrite Hquota. reflexivity.
Qed.

Lemma cancelling_fetch_exhausted (key : option string)
    (startLat startLng endLat endLng : float) (s : State) :
  truthy key = true -> (SAFETY_LIMIT <= requestCountRef s)%Z ->
  exists s',
    Cancelling.fetchRouteFromPoints key false
      startLat startLng endLat endLng s
    = (RejectedQuotaExceeded,
       [console_warn "75% quota reached. Calls blocked."], s')
    /\ requestCountRef s' = requestCountRef s.
Proof.
  intros Hkey Hquota. unfold Cancelling.fetchRouteFromPoints.
  rewrite Hkey. cbn [negb andb]. apply Z.leb_le in Hquota.
  destruct (cancelTokenRef s) as [previous|];
    [unfold Cancelling.abort; cbn [requestCountRef set_controllers]|];
    rewrite Hquota; eexists; split; reflexivity.
Qed.

(** C1, counterexample: after 1500 admitted requests
    the first revision answers a request that comes one second after the
    last admitted one by the spacing branch, not by the quota branch. *)
Lemma spacing_checked_before_quota :
  (SAFETY_LIMIT <= requestCountRef throttled_exhausted)%Z
  /\ (1700022501000 - lastRequestTimeRef throttled_exhausted < 15000)%Z
  /\ Throttled.fetchRouteFromPoints some_key false 1700022501000
       12.9766 77.5713 12.9352 77.6245 throttled_exhausted
     = (RejectedTooSoon, [], throttled_exhausted)
  /\ RejectedTooSoon <> RejectedQuotaExceeded.
Proof.
  split; [vm_compute; discriminate|].
  split; [vm_compute; reflexivity|].
  split; [|discriminate].
  rewrite throttled_fetch_exhausted.
  - destruct throttled_exhausted_refs as [_ ->]. reflexivity.
  - reflexivity.
  - vm_compute; discriminate.
Qed.

(** C1 as amended: with the guard enabled and a credential configured,
    once [requestCountRef] has reached [SAFETY_LIMIT] (1500) no later
    call is admitted and the counter stays where it is.  The second
    revision answers every such call by the quota branch.  The first
    checks the spacing before the quota: it answers by the spacing branch
    a call that comes less than 15000 ms after the last admitted one and
    by the quota branch every other call, and leaves the whole state
    as it is. *)
Theorem quota_exhausted_rejects (key : option string)
    (cs : list (Z * Coordinate * Coordinate)) (s : State)
    (Hkey : truthy key = true)
    (Hquota : (SAFETY_LIMIT <= requestCountRef s)%Z) :
  SAFETY_LIMIT = 1500%Z
  /\ Throttled.calls key false cs s
     = (throttled_exhausted_log (lastRequestTimeRef s) cs, s)
  /\ fst (Cancelling.calls key false cs s) = cancelling_exhausted_log cs
  /\ requestCountRef (snd (Cancelling.calls key false cs s))
     = requestCountRef s.
Proof.
  split; [exact SAFETY_LIMIT_value|]. split.
  - induction cs as [|[[now a] b] rest IH]; [reflexivity|].
    rewrite throttled_calls_cons, throttled_fetch_exhausted by assumption.
    cbn [throttled_exhausted_log map].
    destruct (now - lastRequestTimeRef s <? 15000)%Z; cbn -[Z.sub];
      rewrite IH; reflexivity.
  - revert s Hquota. induction cs as [|[[now a] b] rest IH];
      intros s Hquota; [split; reflexivity|].
    rewrite cancelling_calls_cons.
    destruct (cancelling_fetch_exhausted key (latitude a) (longitude a)
                (latitude b) (longitude b) s Hkey Hquota)
      as (s1 & -> & Hcount).
    cbn [fst snd cancelling_exhausted_log map].
    destruct (IH s1) as [Hlog Hcnt]; [rewrite Hcount; exact Hquota|].
    rewrite Hlog, Hcnt, Hcount. split; reflexivity.
Qed.

Lemma quota_exhausted_rejects_witness :
  (truthy some_key = true
   /\ (SAFETY_LIMIT <= requestCountRef throttled_exhausted)%Z)
  /\ SAFETY_LIMIT = 1500%Z
  /\ Throttled.calls some_key false
       [(1700022501000, majestic, koramangala);
        (1700022600000, koramangala, majestic)]%Z throttled_exhausted
     = (throttled_exhausted_log (lastRequestTimeRef throttled_exhausted)
          [(1700022501000, majestic, koramangala);
           (1700022600000, koramangala, majestic)]%Z,
        throttled_exhausted)
  /\ fst (Cancelling.calls some_key false
            [(1700022501000, majestic, koramangala);
             (1700022600000, koramangala, majestic)]%Z throttled_exhausted)
     = cancelling_exhausted_log
         [(1700022501000, majestic, koramangala);
          (1700022600000, koramangala, majestic)]%Z
  /\ requestCountRef
       (snd (Cancelling.calls some_key false
               [(1700022501000, majestic, koramangala);
                (1700022600000, koramangala, majestic)]%Z
               throttled_exhausted))
     = requestCountRef throttled_exhausted.
Proof.
  assert (truthy some_key = true) as Hkey by reflexivity.
  assert (SAFETY_LIMIT <= requestCountRef throttled_exhausted)%Z as Hquota
    by (vm_compute; discriminate).
  split; [auto|].
  exact (quota_exhausted_rejects some_key
           [(1700022501000, majestic, koramangala);
            (1700022600000, koramangala, majestic)]%Z
           throttled_exhausted Hkey Hquota).
Defined.

(** ** Runs of route requests: the spacing check *)

Section Spacing.

Variable key : option string.
Variable guard : bool.

Let fetch := Throttled.fetchRouteFromPoints key guard.
Let run := Throttled.calls key guard.

(** The three ways a call of the first revision can end. *)
Lemma throttled_fetch_cases (now : Z)
    (startLat startLng endLat endLng : float) (s : State) :
  let r := fetch now startLat startLng endLat endLng s in
  (is_admission (fst (fst r)) = true
   /\ (lastRequestTimeRef s + 15000 <= now)%Z
   /\ lastRequestTimeRef (snd r) = now
   /\ truthy key = true)
  \/ (is_admission (fst (fst r)) = false /\ snd r = s).
Proof.
  unfold fetch, Throttled.fetchRouteFromPoints,
    Throttled.REQUEST_INTERVAL_MS.
  destruct (truthy key); cbn [negb]; [|right; split; reflexivity].
  destruct (now - lastRequestTimeRef s <? 15000)%Z eqn:Hsoon;
    [right; split; reflexivity|].
  destruct (negb guard && _)%bool; [right; split; reflexivity|].
  left. apply Z.ltb_ge in Hsoon. cbn. repeat split. lia.
Qed.

Lemma throttled_fetch_too_soon (now : Z)
    (startLat startLng endLat endLng : float) (s : State) :
  truthy key = true -> (now - lastRequestTimeRef s < 15000)%Z ->
  fetch now startLat startLng endLat endLng s = (RejectedTooSoon, [], s).
Proof.
  intros Hkey Hsoon.
  unfold fetch, Throttled.fetchRouteFromPoints,
    Throttled.REQUEST_INTERVAL_MS.
  rewrite Hkey. cbn [negb]. apply Z.ltb_lt in Hsoon. rewrite Hsoon.
  reflexivity.
Qed.

(** Every admission of a run comes at least the interval after the
    last-request time the run started with. *)
Lemma later_admissions (cs : list (Z * Coordinate * Coordinate))
    (s : State) (j : nat) (tj : Z) (dj : Decision) (esj : list Effect) :
  fst (run cs s) !! j = Some (tj, dj, esj) -> is_admission dj = true ->
  (lastRequestTimeRef s + 15000 <= tj)%Z.
Proof.
  revert s j. induction cs as [|[[now a] b] rest IH]; intros s j Hj Hadm;
    [discriminate Hj|].
  unfold run in Hj. rewrite throttled_calls_cons in Hj.
  cbv zeta in Hj. cbn [fst] in Hj.
  destruct (throttled_fetch_cases now (latitude a) (longitude a)
              (latitude b) (longitude b) s)
    as [(Hd & Hgap & Hlast & _)|(Hd & Hsame)]; unfold fetch in *.
  - destruct j as [|j].
    + injection Hj as <- _ _. exact Hgap.
    + cbn [lookup list_lookup] in Hj.
      specialize (IH _ _ Hj Hadm). rewrite Hlast in IH. lia.
  - destruct j as [|j].
    + injection Hj as _ <- _. congruence.
    + cbn [lookup list_lookup] in Hj. rewrite Hsame in Hj.
      exact (IH _ _ Hj Hadm).
Qed.

(** Until the first admission of a run, a call that comes too soon after
    the last-request time the run started with takes the spacing branch. *)
Lemma too_soon_before_next_admission
    (cs : list (Z * Coordinate * Coordinate)) (s : State) (j : nat)
    (tj : Z) (dj : Decision) (esj : list Effect) :
  truthy key = true ->
  (forall k tk dk esk,
      k < j -> fst (run cs s) !! k = Some (tk, dk, esk) ->
      is_admission dk = false) ->
  fst (run cs s) !! j = Some (tj, dj, esj) ->
  (tj - lastRequestTimeRef s < 15000)%Z ->
  dj = RejectedTooSoon /\ esj = [].
Proof.
  intros Hkey. revert s j.
  induction cs as [|[[now a] b] rest IH]; intros s j Hnone Hj Hsoon;
    [discriminate Hj|].
  unfold run in Hj, Hnone. rewrite throttled_calls_cons in Hj, Hnone.
  cbv zeta in Hj, Hnone. cbn [fst] in Hj, Hnone.
  destruct j as [|j].
  - injection Hj as <- <- <-.
    pose proof (throttled_fetch_too_soon now (latitude a) (longitude a)
                  (latitude b) (longitude b) s Hkey Hsoon) as Hf.
    unfold fetch in Hf. rewrite Hf. split; reflexivity.
  - cbn [lookup list_lookup] in Hj.
    destruct (throttled_fetch_cases now (latitude a) (longitude a)
                (latitude b) (longitude b) s)
      as [(Hd & _)|(_ & Hsame)]; unfold fetch in *.
    + specialize (Hnone 0 _ _ _ (Nat.lt_0_succ j) eq_refl). congruence.
    + rewrite Hsame in Hj. apply (IH s j); [|exact Hj|exact Hsoon].
      intros k tk dk esk Hk Hlook.
      apply (Hnone (S k) tk dk esk); [lia|].
      cbn [lookup list_lookup]. rewrite Hsame. exact Hlook.
Qed.

(** C2 as amended: in the first revision, which has the spacing check,
    any two admitted calls of a run are at least [REQUEST_INTERVAL_MS]
    (15000 ms) apart, and a call that comes sooner than that after the
    last admitted call takes the spacing branch and issues no request.
    (The second revision has no spacing check.) *)
Theorem admitted_calls_are_spaced
    (cs : list (Z * Coordinate * Coordinate)) (s : State) (i j : nat)
    (ti tj : Z) (di dj : Decision) (esi esj : list Effect)
    (Hij : i < j)
    (Hi : fst (Throttled.calls key guard cs s) !! i = Some (ti, di, esi))
    (Hj : fst (Throttled.calls key guard cs s) !! j = Some (tj, dj, esj))
    (Hadm : is_admission di = true) :
  (is_admission dj = true -> (ti + Throttled.REQUEST_INTERVAL_MS <= tj)%Z)
  /\ ((forall k tk dk esk,
          i < k < j ->
          fst (Throttled.calls key guard cs s) !! k = Some (tk, dk, esk) ->
          is_admission dk = false) ->
      (tj - ti < Throttled.REQUEST_INTERVAL_MS)%Z ->
      dj = RejectedTooSoon /\ request_count esj = 0).
Proof.
  unfold Throttled.REQUEST_INTERVAL_MS. fold run in Hi, Hj |- *.
  revert s i j Hij Hi Hj.
  induction cs as [|[[now a] b] rest IH]; intros s i j Hij Hi Hj;
    [discriminate Hi|].
  destruct j as [|j]; [lia|].
  unfold run in Hi, Hj |- *. rewrite throttled_calls_cons in Hi, Hj |- *.
  cbv zeta in Hi, Hj |- *. cbn [fst] in Hi, Hj |- *.
  cbn [lookup list_lookup] in Hj.
  destruct i as [|i].
  - injection Hi as -> Hdi _.
    destruct (throttled_fetch_cases ti (latitude a) (longitude a)
                (latitude b) (longitude b) s)
      as [(_ & _ & Hlast & Hkey)|(Hd & _)]; unfold fetch in *;
      [|congruence].
    split.
    + intros Hadmj.
      pose proof (later_admissions rest
                    (snd (fetch ti (latitude a) (longitude a)
                            (latitude b) (longitude b) s))
                    j tj dj esj Hj Hadmj) as H.
      unfold fetch in H. rewrite Hlast in H. exact H.
    + intros Hnone Hsoon.
      destruct (too_soon_before_next_admission rest
                  (snd (fetch ti (latitude a) (longitude a)
                          (latitude b) (longitude b) s))
                  j tj dj esj Hkey)
        as [-> ->]; [|exact Hj|unfold fetch; rewrite Hlast; exact Hsoon|
                      split; reflexivity].
      intros k tk dk esk Hk Hlook.
      apply (Hnone (S k) tk dk esk); [lia|exact Hlook].
  - cbn [lookup list_lookup] in Hi.
    destruct (IH (snd (fetch now (latitude a) (longitude a)
                         (latitude b) (longitude b) s))
                i j ltac:(lia) Hi Hj) as [Ha Hb].
    split; [exact Ha|]. intros Hnone Hsoon. apply Hb; [|exact Hsoon].
    intros k tk dk esk Hk Hlook.
    apply (Hnone (S k) tk dk esk); [lia|exact Hlook].
Qed.

End Spacing.

Lemma admitted_calls_are_spaced_witness :
  (0 < 1
   /\ fst (Throttled.calls some_key false
             [(1700000000000, majestic, koramangala);
              (1700000001000, koramangala, majestic)]%Z initial) !! 0
      = Some (1700000000000%Z, AdmittedWith None,
              [axios_post directions_url
                 (Throttled.request_body 12.9766 77.5713 12.9352 77.6245)
                 "test-key" None])
   /\ fst (Throttled.calls some_key false
             [(1700000000000, majestic, koramangala);
              (1700000001000, koramangala, majestic)]%Z initial) !! 1
      = Some (1700000001000%Z, RejectedTooSoon, [])
   /\ is_admission (AdmittedWith None) = true)
  /\ (is_admission RejectedTooSoon = true ->
      (1700000000000 + Throttled.REQUEST_INTERVAL_MS <= 1700000001000)%Z)
  /\ ((forall k tk dk esk,
          0 < k < 1 ->
          fst (Throttled.calls some_key false
                 [(1700000000000, majestic, koramangala);
                  (1700000001000, koramangala, majestic)]%Z initial) !! k
          = Some (tk, dk, esk) ->
          is_admission dk = false) ->
      (1700000001000 - 1700000000000 < Throttled.REQUEST_INTERVAL_MS)%Z ->
      RejectedTooSoon = RejectedTooSoon /\ request_count [] = 0).
Proof.
  assert (fst (Throttled.calls some_key false
                 [(1700000000000, majestic, koramangala);
                  (1700000001000, koramangala, majestic)]%Z initial) !! 0
          = Some (1700000000000%Z, AdmittedWith None,
                  [axios_post directions_url
                     (Throttled.request_body
                        12.9766 77.5713 12.9352 77.6245)
                     "test-key" None])) as Hi
    by (vm_compute; reflexivity).
  assert (fst (Throttled.calls some_key false
                 [(1700000000000, majestic, koramangala);
                  (1700000001000, koramangala, majestic)]%Z initial) !! 1
          = Some (1700000001000%Z, RejectedTooSoon, [])) as Hj
    by (vm_compute; reflexivity).
  split; [split; [lia|split; [exact Hi|split; [exact Hj|reflexivity]]]|].
  exact (admitted_calls_are_spaced some_key false _ initial 0 1 _ _ _ _ _ _
           (Nat.lt_0_succ 0) Hi Hj eq_refl).
Defined.

(** C2, counterexample: the second revision reads no clock.  Two requests
    one millisecond apart, made on the mounted component, are both
    admitted and both reach the network. *)
Lemma cancelling_admits_without_spacing :
  fst (Cancelling.calls some_key false
         [(1700000000000, majestic, koramangala);
          (1700000000001, koramangala, majestic)]%Z initial)
  = [(1700000000000%Z, AdmittedWith (Some 0),
      [axios_post directions_url
         (Cancelling.request_body 12.9766 77.5713 12.9352 77.6245)
         "test-key" (Some 0)]);
     (1700000000001%Z, AdmittedWith (Some 1),
      [axios_post directions_url
         (Cancelling.request_body 12.9352 77.6245 12.9766 77.5713)
         "test-key" (Some 1)])]
  /\ (1700000000001 - 1700000000000 < 15000)%Z.
Proof. split; [vm_compute; reflexivity|lia]. Qed.

(** ** Completions and supersession *)


Lemma throttled_settled_response (polyline : list Coordinate)
    (summary : Summary) (d t : string) (s : State) :
  distance_text summary = Some d -> duration_text summary = Some t ->
  Throttled.fetchRouteFromPoints_settled (response_for polyline summary) s
  = Some ([], setRouteCoords polyline
                (setDuration (Some t) (setDistance (Some d) s))).
Proof.
  intros Hd Ht. unfold response_for.
  cbn [Throttled.fetchRouteFromPoints_settled lookup list_lookup
         geometry_coordinates properties_summary].
  rewrite mapM_decode_wire. cbn [mbind option_bind].
  rewrite Hd, Ht. reflexivity.
Qed.

Lemma cancelling_settled_response (controller : nat)
    (polyline smooth : list Coordinate) (summary : Summary) (d t : string)
    (s : State) :
  smoothCoords polyline = Some smooth ->
  distance_text summary = Some d -> duration_text summary = Some t ->
  Cancelling.fetchRouteFromPoints_settled controller
    (response_for polyline summary) s
  = Some ([], setRouteCoords smooth
                (setDuration (Some t) (setDistance (Some d) s))).
Proof.
  intros Hsmooth Hd Ht. unfold response_for.
  cbn [Cancelling.fetchRouteFromPoints_settled lookup list_lookup
         geometry_coordinates properties_summary].
  rewrite mapM_decode_wire. cbn [mbind option_bind].
  rewrite Hsmooth, Hd, Ht. reflexivity.
Qed.




(** * Further properties of the component *)

(** ** Completions *)

Lemma request_count_app (es1 es2 : list Effect) :
  request_count (es1 ++ es2) = request_count es1 + request_count es2.
Proof. unfold request_count. rewrite filter_app, length_app. reflexivity. Qed.

Lemma request_count_post (e : Effect) :
  is_axios_post e = true -> request_count [e] = 1.
Proof.
  intros He. unfold request_count. cbn [filter list_filter].
  rewrite decide_True by exact He. reflexivity.
Qed.

Lemma signals_no_request (es : list Effect) :
  request_count es = 0 -> signals es = [].
Proof.
  unfold request_count. induction es as [|e es IH]; [reflexivity|].
  destruct e; cbn; intros Hes; try discriminate Hes; apply IH; exact Hes.
Qed.

Lemma truthy_append (x suffix : string) :
  suffix <> "" -> truthy (Some (x ++ suffix)%string) = true.
Proof.
  intros Hne. destruct x; cbn; [|reflexivity].
  destruct suffix; [contradiction|reflexivity].
Qed.

Lemma distance_text_truthy (summary : Summary) (d : string) :
  distance_text summary = Some d -> truthy (Some d) = true.
Proof.
  unfold distance_text. intros H. simplify_option_eq.
  apply truthy_append. discriminate.
Qed.

Lemma duration_text_truthy (summary : Summary) (t : string) :
  duration_text summary = Some t -> truthy (Some t) = true.
Proof.
  unfold duration_text. intros H. simplify_option_eq.
  apply truthy_append. discriminate.
Qed.

Lemma throttled_settled_shape (r : AxiosResult) (s s' : State)
    (es : list Effect) :
  Throttled.fetchRouteFromPoints_settled r s = Some (es, s') ->
  (request_count es = 0 /\ s' = s)
  \/ (exists coords summary d t,
        distance_text summary = Some d /\ duration_text summary = Some t
        /\ es = []
        /\ s' = setRouteCoords coords
                  (setDuration (Some t) (setDistance (Some d) s))).
Proof.
  unfold Throttled.fetchRouteFromPoints_settled, Throttled.catch.
  intros H. repeat (case_match; simplify_option_eq);
    try (left; split; reflexivity).
  right. eauto 10.
Qed.

Lemma cancelling_settled_shape (controller : nat) (r : AxiosResult)
    (s s' : State) (es : list Effect) :
  Cancelling.fetchRouteFromPoints_settled controller r s = Some (es, s') ->
  (request_count es = 0 /\ s' = s)
  \/ (exists coords summary d t,
        distance_text summary = Some d /\ duration_text summary = Some t
        /\ es = []
        /\ s' = setRouteCoords coords
                  (setDuration (Some t) (setDistance (Some d) s))).
Proof.
  unfold Cancelling.fetchRouteFromPoints_settled, Cancelling.catch.
  intros H. repeat (case_match; simplify_option_eq);
    try (left; split; reflexivity).
  right. eauto 10.
Qed.

Lemma same_but_route_refl (s : State) : same_but_route s s.
Proof. repeat split. Qed.

Lemma settled_shape_whole (s s' : State) (es : list Effect) :
  (request_count es = 0 /\ s' = s)
  \/ (exists coords summary d t,
        distance_text summary = Some d /\ duration_text summary = Some t
        /\ es = []
        /\ s' = setRouteCoords coords
                  (setDuration (Some t) (setDistance (Some d) s))) ->
  request_count es = 0 /\ same_but_route s s'
  /\ (s' = s \/ (es = [] /\ truthy (distance s') = true
                 /\ truthy (duration s') = true)).
Proof.
  intros [[Hes ->]|(coords & summary & d & t & Hd & Ht & -> & ->)].
  - split; [exact Hes|]. split; [apply same_but_route_refl|].
    left; reflexivity.
  - split; [reflexivity|]. split; [repeat split|]. right.
    split; [reflexivity|]. cbn [distance duration setRouteCoords].
    split; [exact (distance_text_truthy _ _ Hd)|
            exact (duration_text_truthy _ _ Ht)].
Qed.

Lemma throttled_settled_cases (r : AxiosResult) (s : State) :
  match Throttled.fetchRouteFromPoints_settled r s with
  | Some (es, s') =>
      (request_count es = 0 /\ s' = s
       /\ forall coords d t, ~ stores r coords d t)
      \/ (exists coords d t,
            stores r coords d t /\ es = []
            /\ s' = setRouteCoords coords
                      (setDuration (Some t) (setDistance (Some d) s)))
  | None => outside_model r
  end.
Proof.
  unfold Throttled.fetchRouteFromPoints_settled, Throttled.catch.
  destruct r as [features|error];
    [|left; split; [reflexivity|split; [reflexivity|]];
      intros coords d t (f & rest & cs & sm & Hr & _); discriminate Hr].
  destruct features as [|feature rest]; cbn [lookup list_lookup];
    [left; split; [reflexivity|split; [reflexivity|]];
     intros coords d t (f & rest & cs & sm & Hr & _); discriminate Hr|].
  destruct (geometry_coordinates feature) as [cs|] eqn:Hcs;
    [|left; split; [reflexivity|split; [reflexivity|]];
      intros coords d t (f & rest' & cs & sm & Hr & Hg & _);
      injection Hr as <- <-; congruence].
  destruct (mapM decode_position cs) as [coords|] eqn:Hdec;
    cbn [mbind option_bind];
    [|exists feature, rest, cs; auto].
  destruct (properties_summary feature) as [summary|] eqn:Hsum;
    [|left; split; [reflexivity|split; [reflexivity|]];
      intros coords' d t (f & rest' & cs' & sm & Hr & _ & _ & Hs & _);
      injection Hr as <- <-; congruence].
  destruct (distance_text summary) as [d|] eqn:Hd; cbn [mbind option_bind];
    [|exists feature, rest, cs; eauto 10].
  destruct (duration_text summary) as [t|] eqn:Ht; cbn [mbind option_bind];
    [|exists feature, rest, cs; eauto 10].
  right. exists coords, d, t. split; [|split; reflexivity].
  exists feature, rest, cs, summary. auto 10.
Qed.

Lemma cancelling_settled_cases (controller : nat) (r : AxiosResult)
    (s : State) :
  match Cancelling.fetchRouteFromPoints_settled controller r s with
  | Some (es, s') =>
      (request_count es = 0 /\ s' = s
       /\ forall coords d t, ~ stores r coords d t)
      \/ (exists coords smooth d t,
            stores r coords d t /\ smoothCoords coords = Some smooth
            /\ es = []
            /\ s' = setRouteCoords smooth
                      (setDuration (Some t) (setDistance (Some d) s)))
  | None => outside_model r
  end.
Proof.
  unfold Cancelling.fetchRouteFromPoints_settled.
  destruct r as [features|error].
  2:{ unfold Cancelling.catch. destruct (_ || _)%bool;
        (left; split; [reflexivity|split; [reflexivity|]];
         intros coords d t (f & rest & cs & sm & Hr & _); discriminate Hr). }
  unfold Cancelling.catch. cbn [error_name error_code TypeError].
  change (String.eqb "TypeError" "CanceledError" || false)%bool with false.
  cbv iota.
  destruct features as [|feature rest]; cbn [lookup list_lookup];
    [left; split; [reflexivity|split; [reflexivity|]];
     intros coords d t (f & rest & cs & sm & Hr & _); discriminate Hr|].
  destruct (geometry_coordinates feature) as [cs|] eqn:Hcs;
    [|left; split; [reflexivity|split; [reflexivity|]];
      intros coords d t (f & rest' & cs & sm & Hr & Hg & _);
      injection Hr as <- <-; congruence].
  destruct (mapM decode_position cs) as [coords|] eqn:Hdec;
    cbn [mbind option_bind];
    [|exists feature, rest, cs; auto].
  destruct (smoothCoords_total coords) as [smooth Hsmooth].
  rewrite Hsmooth.
  destruct (properties_summary feature) as [summary|] eqn:Hsum;
    [|left; split; [reflexivity|split; [reflexivity|]];
      intros coords' d t (f & rest' & cs' & sm & Hr & _ & _ & Hs & _);
      injection Hr as <- <-; congruence].
  destruct (distance_text summary) as [d|] eqn:Hd; cbn [mbind option_bind];
    [|exists feature, rest, cs; eauto 10].
  destruct (duration_text summary) as [t|] eqn:Ht; cbn [mbind option_bind];
    [|exists feature, rest, cs; eauto 10].
  right. exists coords, smooth, d, t.
  split; [|split; [exact Hsmooth|split; reflexivity]].
  exists feature, rest, cs, summary. auto 10.
Qed.

(** X1: a settled request is applied whole or not at all.  For every
    settled result and state, the continuation of either revision does
    one of three things.  It stores the response whole: the decoded
    polyline of the first feature (densified in the second revision)
    becomes [routeCoords] and the two renderings of its summary become
    [distance] and [duration], both non-empty, nothing is logged and
    every other cell and ref keeps its value.  Or the response is not one
    to store (a rejected promise, no feature, no coordinate list or no
    summary) and the state is exactly what it was, with no request made.
    Or the response is outside the model ([outside_model]: a position
    with fewer than two numbers or a rendering that is not modelled), and
    only then does the model give no answer. *)
Theorem settled_whole_or_nothing (controller : nat) (r : AxiosResult)
    (s : State) :
  match Throttled.fetchRouteFromPoints_settled r s with
  | Some (es, s') =>
      (request_count es = 0 /\ s' = s
       /\ forall coords d t, ~ stores r coords d t)
      \/ (exists coords d t,
            stores r coords d t /\ es = []
            /\ s' = setRouteCoords coords
                      (setDuration (Some t) (setDistance (Some d) s))
            /\ routeCoords s' = coords
            /\ distance s' = Some d /\ duration s' = Some t
            /\ truthy (Some d) = true /\ truthy (Some t) = true
            /\ same_but_route s s')
  | None => outside_model r
  end
  /\ match Cancelling.fetchRouteFromPoints_settled controller r s with
     | Some (es, s') =>
         (request_count es = 0 /\ s' = s
          /\ forall coords d t, ~ stores r coords d t)
         \/ (exists coords smooth d t,
               stores r coords d t /\ smoothCoords coords = Some smooth
               /\ es = []
               /\ s' = setRouteCoords smooth
                         (setDuration (Some t) (setDistance (Some d) s))
               /\ routeCoords s' = smooth
               /\ distance s' = Some d /\ duration s' = Some t
               /\ truthy (Some d) = true /\ truthy (Some t) = true
               /\ same_but_route s s')
     | None => outside_model r
     end.
Proof.
  split.
  - pose proof (throttled_settled_cases r s) as H.
    destruct (Throttled.fetchRouteFromPoints_settled r s) as [[es s']|];
      [|exact H].
    destruct H as [H|(coords & d & t & Hst & -> & ->)]; [left; exact H|].
    right. exists coords, d, t.
    destruct Hst as (f & rest & cs & sm & Hr & Hg & Hdec & Hs & Hd & Ht).
    repeat split;
      try exact (distance_text_truthy _ _ Hd);
      try exact (duration_text_truthy _ _ Ht).
    exists f, rest, cs, sm. auto 10.
  - pose proof (cancelling_settled_cases controller r s) as H.
    destruct (Cancelling.fetchRouteFromPoints_settled controller r s)
      as [[es s']|]; [|exact H].
    destruct H as [H|(coords & smooth & d & t & Hst & Hsm & -> & ->)];
      [left; exact H|].
    right. exists coords, smooth, d, t.
    destruct Hst as (f & rest & cs & sm & Hr & Hg & Hdec & Hs & Hd & Ht).
    split; [exists f, rest, cs, sm; auto 10|].
    split; [exact Hsm|].
    repeat split;
      try exact (distance_text_truthy _ _ Hd);
      try exact (duration_text_truthy _ _ Ht).
Qed.

(** ** Event runs of the first revision *)

Section ThrottledRuns.

Variable key : option string.
Variable guard : bool.

(** What one call of the prefix does to the refs. *)
Lemma throttled_fetch_step (now : Z)
    (startLat startLng endLat endLng : float) (s : State) :
  let r := Throttled.fetchRouteFromPoints key guard now
             startLat startLng endLat endLng s in
  (snd (fst r)
   = [axios_post directions_url
        (Throttled.request_body startLat startLng endLat endLng)
        (default "" key) None]
   /\ truthy key = true
   /\ (lastRequestTimeRef s + 15000 <= now)%Z
   /\ (guard = false -> (requestCountRef s < SAFETY_LIMIT)%Z)
   /\ snd r = set_requestCountRef (requestCountRef s + 1)
                (set_lastRequestTimeRef now s))
  \/ (request_count (snd (fst r)) = 0 /\ snd r = s).
Proof.
  unfold Throttled.fetchRouteFromPoints, Throttled.REQUEST_INTERVAL_MS.
  destruct (truthy key); cbn [negb]; [|right; split; reflexivity].
  destruct (now - lastRequestTimeRef s <? 15000)%Z eqn:Hsoon;
    [right; split; reflexivity|].
  destruct (negb guard && _)%bool eqn:Hguard; [right; split; reflexivity|].
  left. apply Z.ltb_ge in Hsoon. cbn. repeat split; [lia|].
  intros ->. cbn in Hguard. apply Z.leb_gt in Hguard. exact Hguard.
Qed.

(** What one event does to the request counter and the last-request
    time: either it issues one well-formed request, at a tap whose clock
    reading is at least 15000 ms after the last-request time, or it
    issues none and leaves both refs alone. *)
Lemma throttled_dispatch_step (ev : ThrottledHome.Event) (h h' : Home)
    (es : list Effect) :
  ThrottledHome.dispatch key guard ev h = Some (es, h') ->
  (exists now p e,
      ev = ThrottledHome.mapPress now p /\ es = [e]
      /\ is_axios_post e = true /\ well_formed_request key e
      /\ (lastRequestTimeRef (cells h) + 15000 <= now)%Z
      /\ lastRequestTimeRef (cells h') = now
      /\ requestCountRef (cells h') = (requestCountRef (cells h) + 1)%Z
      /\ (guard = false -> (requestCountRef (cells h) < SAFETY_LIMIT)%Z))
  \/ (request_count es = 0
      /\ lastRequestTimeRef (cells h') = lastRequestTimeRef (cells h)
      /\ requestCountRef (cells h') = requestCountRef (cells h)).
Proof.
  intros H. unfold ThrottledHome.dispatch, render in H.
  destruct ev as [location|now p| | | |r].
  - injection H as <- <-. right. repeat split.
  - destruct (region h); [|injection H as <- <-; right; repeat split].
    unfold Throttled.handleMapPress in H. rewrite Coordinate_eta in H.
    destruct (startPoint (cells h)) as [a|];
      [|injection H as <- <-; right; repeat split].
    destruct (endPoint (cells h));
      [injection H as <- <-; right; repeat split|].
    pose proof (throttled_fetch_step now (latitude a) (longitude a)
                  (latitude p) (longitude p)
                  (setEndPoint (Some p) (cells h))) as Hstep.
    destruct (Throttled.fetchRouteFromPoints key guard now _ _ _ _ _)
      as [[d es1] s1].
    injection H as <- <-. cbv zeta in Hstep. cbn [fst snd] in Hstep.
    destruct Hstep as [(-> & Hkey & Hgap & Hlim & ->)|[Hnone ->]].
    + left. eexists now, p, _. split; [reflexivity|].
      split; [reflexivity|]. split; [reflexivity|].
      split; [|repeat split; assumption].
      destruct key as [[|c k]|]; try discriminate Hkey.
      cbn. repeat split. unfold wire_position. eauto.
    + right. repeat split. exact Hnone.
  - destruct (region h); injection H as <- <-; right; repeat split.
  - destruct (region h); [|injection H as <- <-; right; repeat split].
    cbn [useMyLocationButton] in H.
    destruct (negb _); injection H as <- <-; right; [|repeat split].
    unfold handleUseMyLocation. destruct (userLocation (cells h));
      repeat split.
  - destruct (region h); [|injection H as <- <-; right; repeat split].
    cbn [routeCard] in H.
    match type of H with
    | match ?card with _ => _ end = _ => destruct card
    end; injection H as <- <-; right; repeat split.
  - destruct (Throttled.fetchRouteFromPoints_settled r (cells h))
      as [[es1 s1]|] eqn:Hset; [|discriminate H].
    cbn in H. injection H as <- <-.
    destruct (settled_shape_whole _ _ _
                (throttled_settled_shape _ _ _ _ Hset))
      as (Hes & (_ & _ & _ & Hcnt & Hlast & _) & _).
    right. cbn. auto.
Qed.

End ThrottledRuns.

Lemma throttled_run_cons (key : option string) (guard : bool)
    (ev : ThrottledHome.Event) (rest : list ThrottledHome.Event)
    (h h' : Home) (es : list Effect) :
  ThrottledHome.run key guard (ev :: rest) h = Some (es, h') ->
  exists es1 h1 es2,
    ThrottledHome.dispatch key guard ev h = Some (es1, h1)
    /\ ThrottledHome.run key guard rest h1 = Some (es2, h')
    /\ es = es1 ++ es2.
Proof.
  cbn [ThrottledHome.run]. intros H.
  destruct (ThrottledHome.dispatch key guard ev h) as [[es1 h1]|] eqn:Hd;
    [|discriminate H].
  cbn in H.
  destruct (ThrottledHome.run key guard rest h1) as [[es2 h2]|] eqn:Hr;
    [|discriminate H].
  cbn in H. injection H as <- <-. exists es1, h1, es2.
  split; [reflexivity|]. split; [exact Hr|reflexivity].
Qed.

(** X2: in the first revision the request counter counts the requests
    that reach the network, over any run of events (location fixes, taps,
    long presses, button presses, settled requests): after the run it has
    grown by exactly the number of requests issued.  With the guard
    enabled a counter that starts at or below the safety limit never
    passes it, so a component that has just mounted issues at most 1500
    requests in its lifetime. *)
Theorem throttled_request_budget (key : option string) (guard : bool)
    (evs : list ThrottledHome.Event) (h h' : Home) (es : list Effect)
    (Hrun : ThrottledHome.run key guard evs h = Some (es, h')) :
  requestCountRef (cells h')
  = (requestCountRef (cells h) + Z.of_nat (request_count es))%Z
  /\ (guard = false ->
      (requestCountRef (cells h) <= SAFETY_LIMIT)%Z ->
      (requestCountRef (cells h') <= SAFETY_LIMIT)%Z)
  /\ (guard = false -> h = mounted -> request_count es <= 1500).
Proof.
  assert (requestCountRef (cells h')
          = (requestCountRef (cells h) + Z.of_nat (request_count es))%Z
          /\ (guard = false ->
              (requestCountRef (cells h) <= SAFETY_LIMIT)%Z ->
              (requestCountRef (cells h') <= SAFETY_LIMIT)%Z)) as [Hc Hl].
  { revert h es Hrun. induction evs as [|ev rest IH]; intros h es Hrun.
    - injection Hrun as <- <-. split; [cbn; lia|auto].
    - apply throttled_run_cons in Hrun
        as (es1 & h1 & es2 & Hstep & Hrest & ->).
      destruct (IH _ _ Hrest) as [IHc IHl].
      apply throttled_dispatch_step in Hstep
        as [(now & p & e & _ & -> & Hpost & _ & _ & _ & Hcnt & Hlim)
           |(Hnone & _ & Hcnt)].
      + split.
        * rewrite request_count_app, (request_count_post _ Hpost), IHc, Hcnt.
          lia.
        * intros Hg Hle. apply IHl; [exact Hg|]. specialize (Hlim Hg). lia.
      + split.
        * rewrite request_count_app, Hnone, IHc, Hcnt. lia.
        * intros Hg Hle. apply IHl; [exact Hg|]. lia. }
  split; [exact Hc|]. split; [exact Hl|]. intros Hg ->.
  specialize (Hl Hg). rewrite SAFETY_LIMIT_value in Hl.
  cbn [cells mounted initial requestCountRef] in Hc, Hl. lia.
Qed.

Lemma throttled_request_budget_witness :
  ThrottledHome.run some_key false
    [ThrottledHome.locationUpdate
       {| coords_latitude := 12.9716; coords_longitude := 77.5946;
          coords_accuracy := Some 5%float |};
     ThrottledHome.mapPress 1700000000000 majestic;
     ThrottledHome.mapPress 1700000004000 koramangala] mounted
  = Some ([axios_post directions_url
             (Throttled.request_body 12.9766 77.5713 12.9352 77.6245)
             "test-key" None],
          {| cells :=
               set_requestCountRef 1
                 (set_lastRequestTimeRef 1700000004000
                    (setEndPoint (Some koramangala)
                       (setStartPoint (Some majestic)
                          (setUserLocation
                             (Some {| latitude := 12.9716;
                                      longitude := 77.5946 |})
                             initial))));
             region := Some (region_at 12.9716 77.5946) |})
  /\ 1%Z = (0 + Z.of_nat 1)%Z.
Proof.
  assert (ThrottledHome.run some_key false
            [ThrottledHome.locationUpdate
               {| coords_latitude := 12.9716; coords_longitude := 77.5946;
                  coords_accuracy := Some 5%float |};
             ThrottledHome.mapPress 1700000000000 majestic;
             ThrottledHome.mapPress 1700000004000 koramangala] mounted
          = Some ([axios_post directions_url
                     (Throttled.request_body
                        12.9766 77.5713 12.9352 77.6245)
                     "test-key" None],
                  {| cells :=
                       set_requestCountRef 1
                         (set_lastRequestTimeRef 1700000004000
                            (setEndPoint (Some koramangala)
                               (setStartPoint (Some majestic)
                                  (setUserLocation
                                     (Some {| latitude := 12.9716;
                                              longitude := 77.5946 |})
                                     initial))));
                     region := Some (region_at 12.9716 77.5946) |}))
    as Hrun by (vm_compute; reflexivity).
  split; [exact Hrun|].
  exact (proj1 (throttled_request_budget some_key false _ _ _ _ Hrun)).
Defined.

(** X3: the rate of the first revision.  Over any run of events whose
    taps all read the clock at or before [M], the requests issued are at
    least 15000 ms apart starting from the last-request time of the
    starting state: their number [n] is zero or satisfies
    15000 * n <= M - lastRequestTime. *)
Theorem throttled_rate_bound (key : option string) (guard : bool)
    (evs : list ThrottledHome.Event) (h h' : Home) (es : list Effect)
    (M : Z)
    (Hrun : ThrottledHome.run key guard evs h = Some (es, h'))
    (Htimes : Forall (fun now => (now <= M)%Z)
                (ThrottledHome.press_times evs)) :
  request_count es = 0
  \/ (15000 * Z.of_nat (request_count es)
      <= M - lastRequestTimeRef (cells h))%Z.
Proof.
  revert h es Hrun Htimes. induction evs as [|ev rest IH];
    intros h es Hrun Htimes.
  - injection Hrun as <- <-. left. reflexivity.
  - apply throttled_run_cons in Hrun
      as (es1 & h1 & es2 & Hstep & Hrest & ->).
    rewrite request_count_app.
    apply throttled_dispatch_step in Hstep
      as [(now & p & e & -> & -> & Hpost & _ & Hgap & Hlast & _)
         |(Hnone & Hlast & _)].
    + cbn [ThrottledHome.press_times omap] in Htimes.
      apply Forall_cons in Htimes as [HnowM Htimes].
      rewrite (request_count_post _ Hpost). right.
      destruct (IH _ _ Hrest Htimes) as [-> | Hbound].
      * cbn. lia.
      * rewrite Hlast in Hbound. lia.
    + rewrite Hnone, <- Hlast. cbn [Nat.add]. apply (IH _ _ Hrest).
      unfold ThrottledHome.press_times in *. cbn [omap] in Htimes.
      destruct ev; try exact Htimes.
      apply Forall_cons in Htimes as [_ Htimes]. exact Htimes.
Qed.

Lemma throttled_rate_bound_witness :
  (ThrottledHome.run some_key false
     [ThrottledHome.locationUpdate
        {| coords_latitude := 12.9716; coords_longitude := 77.5946;
           coords_accuracy := None |};
      ThrottledHome.mapPress 20000 majestic;
      ThrottledHome.mapPress 21000 koramangala;
      ThrottledHome.mapPress 22000 koramangala;
      ThrottledHome.mapPress 23000 majestic] mounted
   = Some ([axios_post directions_url
              (Throttled.request_body 12.9766 77.5713 12.9352 77.6245)
              "test-key" None],
           {| cells :=
                set_requestCountRef 1
                  (set_lastRequestTimeRef 21000
                     (setEndPoint (Some majestic)
                        (setStartPoint (Some koramangala)
                           (setUserLocation
                              (Some {| latitude := 12.9716;
                                       longitude := 77.5946 |})
                              initial))));
              region := Some (region_at 12.9716 77.5946) |})
   /\ Forall (fun now => (now <= 23000)%Z) [20000; 21000; 22000; 23000]%Z)
  /\ (1 = 0 \/ (15000 * Z.of_nat 1 <= 23000 - 0)%Z).
Proof.
  assert (ThrottledHome.run some_key false
            [ThrottledHome.locationUpdate
               {| coords_latitude := 12.9716; coords_longitude := 77.5946;
                  coords_accuracy := None |};
             ThrottledHome.mapPress 20000 majestic;
             ThrottledHome.mapPress 21000 koramangala;
             ThrottledHome.mapPress 22000 koramangala;
             ThrottledHome.mapPress 23000 majestic] mounted
          = Some ([axios_post directions_url
                     (Throttled.request_body
                        12.9766 77.5713 12.9352 77.6245)
                     "test-key" None],
                  {| cells :=
                       set_requestCountRef 1
                         (set_lastRequestTimeRef 21000
                            (setEndPoint (Some majestic)
                               (setStartPoint (Some koramangala)
                                  (setUserLocation
                                     (Some {| latitude := 12.9716;
                                              longitude := 77.5946 |})
                                     initial))));
                     region := Some (region_at 12.9716 77.5946) |}))
    as Hrun by (vm_compute; reflexivity).
  assert (Forall (fun now => (now <= 23000)%Z)
            [20000; 21000; 22000; 23000]%Z) as Htimes
    by (repeat constructor; lia).
  split; [split; assumption|].
  exact (throttled_rate_bound some_key false _ _ _ _ 23000%Z Hrun Htimes).
Defined.

(** ** Event runs of the second revision *)

Section CancellingRuns.

Variable key : option string.
Variable guard : bool.

Lemma same_refs_refl (s : State) : same_refs s s.
Proof. repeat split. Qed.

(** What one call of the prefix does: it aborts the current controller
    and then either issues one request under a fresh controller or
    stops. *)
Lemma cancelling_fetch_step
    (startLat startLng endLat endLng : float) (s : State) :
  let r := Cancelling.fetchRouteFromPoints key guard
             startLat startLng endLat endLng s in
  (snd (fst r)
   = [axios_post directions_url
        (Cancelling.request_body startLat startLng endLat endLng)
        (default "" key) (Some (length (controllers s)))]
   /\ truthy key = true
   /\ (guard = false -> (requestCountRef s < SAFETY_LIMIT)%Z)
   /\ requestCountRef (snd r) = (requestCountRef s + 1)%Z
   /\ lastRequestTimeRef (snd r) = lastRequestTimeRef s
   /\ cancelTokenRef (snd r) = Some (length (controllers s))
   /\ controllers (snd r) = controllers (abort_current s) ++ [false])
  \/ (request_count (snd (fst r)) = 0
      /\ requestCountRef (snd r) = requestCountRef s
      /\ lastRequestTimeRef (snd r) = lastRequestTimeRef s
      /\ cancelTokenRef (snd r) = cancelTokenRef s
      /\ (controllers (snd r) = controllers s
          \/ controllers (snd r) = controllers (abort_current s))).
Proof.
  unfold Cancelling.fetchRouteFromPoints. fold (abort_current s).
  destruct (truthy key); cbn [negb];
    [|right; repeat split; left; reflexivity].
  assert (requestCountRef (abort_current s) = requestCountRef s
          /\ lastRequestTimeRef (abort_current s) = lastRequestTimeRef s
          /\ cancelTokenRef (abort_current s) = cancelTokenRef s
          /\ length (controllers (abort_current s))
             = length (controllers s)) as (Hc & Hl & Ht & Hn).
  { unfold abort_current, Cancelling.abort.
    destruct (cancelTokenRef s) eqn:Htok; cbn; rewrite ?length_insert;
      auto. }
  destruct (negb guard && _)%bool eqn:Hguard.
  - right. cbn [fst snd]. repeat split; try assumption. right. reflexivity.
  - left. cbn [fst snd requestCountRef lastRequestTimeRef cancelTokenRef
                 controllers set_requestCountRef set_cancelTokenRef
                 set_controllers].
    rewrite Hn, Hc. repeat split; try assumption.
    intros ->. cbn in Hguard. apply Z.leb_gt in Hguard. lia.
Qed.

Lemma controllers_ok_same_refs (s s' : State) :
  same_refs s s' -> controllers_ok s -> controllers_ok s'.
Proof.
  intros (Hc & _ & Ht & Hh) (Ic & It & Ia). unfold controllers_ok.
  rewrite Hc, Ht, Hh. auto.
Qed.

Lemma controllers_abort_current (s : State) :
  controllers_ok s ->
  length (controllers (abort_current s)) = length (controllers s)
  /\ forall c, c < length (controllers s) ->
               controllers (abort_current s) !! c = Some true.
Proof.
  intros (_ & It & Ia). unfold abort_current, Cancelling.abort.
  rewrite It. destruct (length (controllers s)) as [|n] eqn:Hn.
  - split; [exact Hn|]. intros c Hc. lia.
  - cbn [controllers set_controllers]. rewrite length_insert.
    split; [exact Hn|]. intros c Hc.
    destruct (decide (c = n)) as [->|Hne].
    + apply list_lookup_insert_eq. lia.
    + rewrite list_lookup_insert_ne by congruence. apply Ia. lia.
Qed.

Lemma controllers_ok_fetch
    (startLat startLng endLat endLng : float) (s : State) :
  controllers_ok s ->
  controllers_ok (snd (Cancelling.fetchRouteFromPoints key guard
                         startLat startLng endLat endLng s)).
Proof.
  intros Hok.
  destruct (controllers_abort_current s Hok) as [Hlen Hall].
  destruct Hok as (Ic & It & Ia).
  destruct (cancelling_fetch_step startLat startLng endLat endLng s)
    as [(_ & _ & _ & Hc & _ & Ht & Hh)|(_ & Hc & _ & Ht & [Hh|Hh])];
    cbv zeta in *; unfold controllers_ok; rewrite Hc, Ht, Hh.
  - rewrite length_app, Hlen. cbn [length].
    rewrite Nat.add_1_r. split; [lia|]. split; [reflexivity|].
    intros c Hlt. rewrite lookup_app_l by lia. apply Hall. lia.
  - auto.
  - rewrite Hlen. split; [exact Ic|]. split; [exact It|].
    intros c Hlt. apply Hall. lia.
Qed.

End CancellingRuns.

Section CancellingEvents.

Variable key : option string.
Variable guard : bool.

Lemma length_abort_current (s : State) :
  length (controllers (abort_current s)) = length (controllers s).
Proof.
  unfold abort_current, Cancelling.abort.
  destruct (cancelTokenRef s); cbn; rewrite ?length_insert; reflexivity.
Qed.

(** One event either runs the prefix of [fetchRouteFromPoints] once, on a
    state with the same refs, or issues nothing and leaves the refs
    alone. *)
Lemma cancelling_dispatch_step (ev : CancellingHome.Event) (h h' : Home)
    (es : list Effect) :
  CancellingHome.dispatch key guard ev h = Some (es, h') ->
  (exists startLat startLng endLat endLng s0,
      same_refs (cells h) s0
      /\ es = snd (fst (Cancelling.fetchRouteFromPoints key guard
                          startLat startLng endLat endLng s0))
      /\ cells h' = snd (Cancelling.fetchRouteFromPoints key guard
                           startLat startLng endLat endLng s0))
  \/ (request_count es = 0 /\ same_refs (cells h) (cells h')).
Proof.
  intros H. unfold CancellingHome.dispatch, render in H.
  destruct ev as [location|p| | | |controller r].
  - injection H as <- <-. right. split; [reflexivity|].
    unfold CancellingHome.onLocation.
    match goal with
    | |- context [if ?b then _ else _] => destruct b
    end; repeat split.
  - destruct (region h); [|injection H as <- <-; right; repeat split].
    unfold Cancelling.handleMapPress in H. rewrite Coordinate_eta in H.
    destruct (startPoint (cells h)) as [a|];
      [|injection H as <- <-; right; repeat split].
    destruct (endPoint (cells h));
      [injection H as <- <-; right; repeat split|].
    left. exists (latitude a), (longitude a), (latitude p), (longitude p),
      (setEndPoint (Some p) (cells h)).
    destruct (Cancelling.fetchRouteFromPoints key guard _ _ _ _ _)
      as [[d es1] s1].
    injection H as <- <-. repeat split.
  - destruct (region h); injection H as <- <-; right; repeat split.
  - destruct (region h); [|injection H as <- <-; right; repeat split].
    cbn [useMyLocationButton] in H.
    destruct (negb _); injection H as <- <-; right; [|repeat split].
    unfold handleUseMyLocation. destruct (userLocation (cells h));
      repeat split.
  - destruct (region h); [|injection H as <- <-; right; repeat split].
    cbn [routeCard] in H.
    match type of H with
    | match ?card with _ => _ end = _ => destruct card
    end; injection H as <- <-; right; repeat split.
  - destruct (Cancelling.fetchRouteFromPoints_settled controller r (cells h))
      as [[es1 s1]|] eqn:Hset; [|discriminate H].
    cbn in H. injection H as <- <-.
    destruct (settled_shape_whole _ _ _
                (cancelling_settled_shape _ _ _ _ _ Hset))
      as (Hes & (_ & _ & _ & Hcnt & Hlast & Htok & Hheap) & _).
    right. split; [exact Hes|]. repeat split; assumption.
Qed.

Lemma cancelling_run_cons (ev : CancellingHome.Event)
    (rest : list CancellingHome.Event) (h h' : Home) (es : list Effect) :
  CancellingHome.run key guard (ev :: rest) h = Some (es, h') ->
  exists es1 h1 es2,
    CancellingHome.dispatch key guard ev h = Some (es1, h1)
    /\ CancellingHome.run key guard rest h1 = Some (es2, h')
    /\ es = es1 ++ es2.
Proof.
  cbn [CancellingHome.run]. intros H.
  destruct (CancellingHome.dispatch key guard ev h) as [[es1 h1]|] eqn:Hd;
    [|discriminate H].
  cbn in H.
  destruct (CancellingHome.run key guard rest h1) as [[es2 h2]|] eqn:Hr;
    [|discriminate H].
  cbn in H. injection H as <- <-. exists es1, h1, es2.
  split; [reflexivity|]. split; [exact Hr|reflexivity].
Qed.

(** What one event does to the counter, the heap and the requests. *)
Lemma cancelling_dispatch_count (ev : CancellingHome.Event) (h h' : Home)
    (es : list Effect) :
  CancellingHome.dispatch key guard ev h = Some (es, h') ->
  requestCountRef (cells h')
  = (requestCountRef (cells h) + Z.of_nat (request_count es))%Z
  /\ length (controllers (cells h'))
     = length (controllers (cells h)) + request_count es
  /\ signals es
     = map Some (seq (length (controllers (cells h))) (request_count es))
  /\ (guard = false -> request_count es <> 0 ->
      (requestCountRef (cells h) < SAFETY_LIMIT)%Z)
  /\ (controllers_ok (cells h) -> controllers_ok (cells h')).
Proof.
  intros H. apply cancelling_dispatch_step in H
    as [(a & b & c & d & s0 & (Hc & Hl & Ht & Hh) & -> & ->)
       |(Hnone & Hsame)].
  - assert (controllers_ok (cells h) ->
            controllers_ok
              (snd (Cancelling.fetchRouteFromPoints key guard a b c d s0)))
      as Hokstep.
    { intros Hok. apply controllers_ok_fetch.
      apply (controllers_ok_same_refs (cells h));
        [repeat split; assumption|exact Hok]. }
    pose proof (cancelling_fetch_step key guard a b c d s0) as Hstep.
    cbv zeta in Hstep.
    destruct Hstep as [(Hes & _ & Hlim & Hcnt & _ & _ & Hheap)
                      |(Hes & Hcnt & _ & _ & Hheap)].
    + rewrite Hes, Hcnt, Hheap, length_app, length_abort_current, Hc, Hh.
      rewrite request_count_post by reflexivity. cbn.
      split; [lia|]. split; [reflexivity|]. split; [reflexivity|].
      split; [|exact Hokstep]. intros Hg _. rewrite <- Hc. auto.
    + rewrite Hes, Hcnt, Hc.
      assert (length (controllers
                        (snd (Cancelling.fetchRouteFromPoints key guard
                                a b c d s0)))
              = length (controllers (cells h))) as ->.
      { destruct Hheap as [-> | ->]; rewrite ?length_abort_current, Hh;
          reflexivity. }
      rewrite (signals_no_request _ Hes).
      cbn. split; [lia|]. split; [lia|]. split; [reflexivity|].
      split; [|exact Hokstep]. intros _ Hne. contradiction.
  - destruct Hsame as (Hc & Hl & Ht & Hh). rewrite Hc, Hh.
    rewrite (signals_no_request _ Hnone), Hnone. cbn.
    split; [lia|]. split; [lia|]. split; [reflexivity|].
    split; [intros _ Hne; contradiction|].
    apply controllers_ok_same_refs. repeat split; assumption.
Qed.

End CancellingEvents.

Lemma cancelling_run_count (key : option string) (guard : bool)
    (evs : list CancellingHome.Event) (h h' : Home) (es : list Effect) :
  CancellingHome.run key guard evs h = Some (es, h') ->
  requestCountRef (cells h')
  = (requestCountRef (cells h) + Z.of_nat (request_count es))%Z
  /\ length (controllers (cells h'))
     = length (controllers (cells h)) + request_count es
  /\ signals es
     = map Some (seq (length (controllers (cells h))) (request_count es))
  /\ (guard = false ->
      (requestCountRef (cells h) <= SAFETY_LIMIT)%Z ->
      (requestCountRef (cells h') <= SAFETY_LIMIT)%Z)
  /\ (controllers_ok (cells h) -> controllers_ok (cells h')).
Proof.
  revert h es. induction evs as [|ev rest IH]; intros h es Hrun.
  - injection Hrun as <- <-. change (request_count []) with 0.
    rewrite Nat.add_0_r, Z.add_0_r.
    split; [reflexivity|]. split; [reflexivity|]. split; [reflexivity|].
    split; auto.
  - apply cancelling_run_cons in Hrun
      as (es1 & h1 & es2 & Hstep & Hrest & ->).
    destruct (IH _ _ Hrest) as (Ic & Ih & Is & Il & Iok).
    destruct (cancelling_dispatch_count _ _ _ _ _ _ Hstep)
      as (Sc & Sh & Ss & Sl & Sok).
    rewrite request_count_app.
    split; [lia|]. split; [lia|]. split; [|split].
    + unfold signals in *. rewrite omap_app, Ss, Is, Sh, seq_app, map_app.
      reflexivity.
    + intros Hg Hle. apply Il; [exact Hg|].
      destruct (request_count es1) as [|n] eqn:Hn; [lia|].
      assert (n = 0) as ->.
      { apply cancelling_dispatch_step in Hstep
          as [(a & b & c & d & s0 & _ & -> & _)|[Hnone _]];
          [|congruence].
        destruct (cancelling_fetch_step key guard a b c d s0)
          as [(Hes & _)|(Hes & _)]; cbv zeta in Hes.
        - rewrite Hes, request_count_post in Hn by reflexivity. lia.
        - congruence. }
      specialize (Sl Hg ltac:(lia)). lia.
    + auto.
Qed.

(** X4: in the second revision, too, the request counter counts the
    requests that reach the network over any run of events, and with the
    guard enabled it never passes the safety limit: a component that has
    just mounted issues at most 1500 requests in its lifetime, however
    fast the taps come. *)
Theorem cancelling_request_budget (key : option string) (guard : bool)
    (evs : list CancellingHome.Event) (h h' : Home) (es : list Effect)
    (Hrun : CancellingHome.run key guard evs h = Some (es, h')) :
  requestCountRef (cells h')
  = (requestCountRef (cells h) + Z.of_nat (request_count es))%Z
  /\ (guard = false ->
      (requestCountRef (cells h) <= SAFETY_LIMIT)%Z ->
      (requestCountRef (cells h') <= SAFETY_LIMIT)%Z)
  /\ (guard = false -> h = mounted -> request_count es <= 1500).
Proof.
  destruct (cancelling_run_count _ _ _ _ _ _ Hrun)
    as (Hc & _ & _ & Hl & _).
  split; [exact Hc|]. split; [exact Hl|]. intros Hg ->.
  specialize (Hl Hg). rewrite SAFETY_LIMIT_value in Hl.
  cbn [cells mounted initial requestCountRef] in Hc, Hl. lia.
Qed.

(** X5: supersession bookkeeping of the second revision.  If the counter
    equals the number of controllers created, the current token is the
    controller created last and every earlier controller is aborted (as
    when the component mounts), then the same holds after any run of
    events: at most one request, the latest, is ever left unaborted. *)
Theorem cancelling_controllers_in_step (key : option string) (guard : bool)
    (evs : list CancellingHome.Event) (h h' : Home) (es : list Effect)
    (Hrun : CancellingHome.run key guard evs h = Some (es, h'))
    (Hok : controllers_ok (cells h)) :
  controllers_ok (cells h').
Proof.
  destruct (cancelling_run_count _ _ _ _ _ _ Hrun) as (_ & _ & _ & _ & H).
  exact (H Hok).
Qed.

(** X6: every request of the second revision carries a controller of its
    own.  Over any run of events the signals of the requests issued are
    the controllers numbered consecutively from the size of the heap at
    the start, one new controller per request; no two requests share a
    signal and no controller is created without a request. *)
Theorem cancelling_fresh_signals (key : option string) (guard : bool)
    (evs : list CancellingHome.Event) (h h' : Home) (es : list Effect)
    (Hrun : CancellingHome.run key guard evs h = Some (es, h')) :
  signals es
  = map Some (seq (length (controllers (cells h))) (request_count es))
  /\ length (controllers (cells h'))
     = length (controllers (cells h)) + request_count es
  /\ NoDup (signals es).
Proof.
  destruct (cancelling_run_count _ _ _ _ _ _ Hrun) as (_ & Hh & Hs & _).
  split; [exact Hs|]. split; [exact Hh|]. rewrite Hs.
  apply NoDup_fmap_2; [intros x y Hxy; congruence|apply NoDup_seq].
Qed.

Lemma cancelling_request_budget_witness :
  exists es h',
    CancellingHome.run some_key false cancelling_session mounted
    = Some (es, h')
    /\ request_count es = 2
    /\ requestCountRef (cells h')
       = (requestCountRef (cells mounted) + Z.of_nat (request_count es))%Z.
Proof.
  destruct (CancellingHome.run some_key false cancelling_session mounted)
    as [[es h']|] eqn:Hrun; [|vm_compute in Hrun; discriminate Hrun].
  exists es, h'. split; [reflexivity|]. split.
  - vm_compute in Hrun. injection Hrun as <- _. reflexivity.
  - exact (proj1 (cancelling_request_budget _ _ _ _ _ _ Hrun)).
Defined.

Lemma cancelling_controllers_in_step_witness :
  controllers_ok (cells mounted)
  /\ exists es h',
       CancellingHome.run some_key false cancelling_session mounted
       = Some (es, h')
       /\ controllers (cells h') = [true; false]
       /\ controllers_ok (cells h').
Proof.
  assert (controllers_ok (cells mounted)) as Hok.
  { split; [reflexivity|]. split; [reflexivity|]. intros c Hc.
    cbn in Hc. lia. }
  split; [exact Hok|].
  destruct (CancellingHome.run some_key false cancelling_session mounted)
    as [[es h']|] eqn:Hrun; [|vm_compute in Hrun; discriminate Hrun].
  exists es, h'. split; [reflexivity|]. split.
  - vm_compute in Hrun. injection Hrun as _ <-. reflexivity.
  - exact (cancelling_controllers_in_step _ _ _ _ _ _ Hrun Hok).
Defined.

Lemma cancelling_fresh_signals_witness :
  exists es h',
    CancellingHome.run some_key false cancelling_session mounted
    = Some (es, h')
    /\ signals es = [Some 0; Some 1]
    /\ signals es
       = map Some (seq (length (controllers (cells mounted)))
                     (request_count es)).
Proof.
  destruct (CancellingHome.run some_key false cancelling_session mounted)
    as [[es h']|] eqn:Hrun; [|vm_compute in Hrun; discriminate Hrun].
  exists es, h'. split; [reflexivity|]. split.
  - vm_compute in Hrun. injection Hrun as <- _. reflexivity.
  - exact (proj1 (cancelling_fresh_signals _ _ _ _ _ _ Hrun)).
Defined.

(** ** Requests and the credential *)

Lemma no_request_well_formed (key : option string) (es : list Effect) :
  request_count es = 0 -> Forall (well_formed_request key) es.
Proof.
  unfold request_count. induction es as [|e es IH]; [constructor|].
  destruct e; cbn; intros Hes; try discriminate Hes;
    constructor; try exact I; apply IH; exact Hes.
Qed.

Lemma well_formed_no_key (key : option string) (es : list Effect) :
  truthy key = false -> Forall (well_formed_request key) es ->
  request_count es = 0.
Proof.
  intros Hkey Hall. unfold request_count.
  induction Hall as [|e es He _ IH]; [reflexivity|].
  destruct e; cbn; try exact IH.
  destruct He as (_ & Hauth & -> & _). congruence.
Qed.

(** X7: whatever the events, every request either revision sends goes to
    the directions endpoint, carries the configured key, non-empty, as
    its Authorization header and holds exactly two positions of two
    numbers; with no key configured (undefined or empty) no run of
    events sends any request. *)
Theorem requests_carry_credential (key : option string) (guard : bool) :
  (forall evs h h' es,
      ThrottledHome.run key guard evs h = Some (es, h') ->
      Forall (well_formed_request key) es
      /\ (truthy key = false -> request_count es = 0))
  /\ (forall evs h h' es,
        CancellingHome.run key guard evs h = Some (es, h') ->
        Forall (well_formed_request key) es
        /\ (truthy key = false -> request_count es = 0)).
Proof.
  split; intros evs h h' es Hrun;
    (assert (Forall (well_formed_request key) es) as Hall;
     [|split; [exact Hall|intros Hkey; exact (well_formed_no_key _ _ Hkey Hall)]]).
  - revert h es Hrun. induction evs as [|ev rest IH]; intros h es Hrun.
    + injection Hrun as <- <-. constructor.
    + apply throttled_run_cons in Hrun
        as (es1 & h1 & es2 & Hstep & Hrest & ->).
      apply Forall_app. split; [|exact (IH _ _ Hrest)].
      apply throttled_dispatch_step in Hstep
        as [(now & p & e & _ & -> & _ & Hwf & _)|(Hnone & _)].
      * constructor; [exact Hwf|constructor].
      * apply no_request_well_formed. exact Hnone.
  - revert h es Hrun. induction evs as [|ev rest IH]; intros h es Hrun.
    + injection Hrun as <- <-. constructor.
    + apply cancelling_run_cons in Hrun
        as (es1 & h1 & es2 & Hstep & Hrest & ->).
      apply Forall_app. split; [|exact (IH _ _ Hrest)].
      apply cancelling_dispatch_step in Hstep
        as [(a & b & c & d & s0 & _ & -> & _)|(Hnone & _)];
        [|apply no_request_well_formed; exact Hnone].
      destruct (cancelling_fetch_step key guard a b c d s0)
        as [(-> & Hkey & _)|(Hnone & _)]; cbv zeta in *;
        [|apply no_request_well_formed; exact Hnone].
      constructor; [|constructor].
      destruct key as [[|ch k]|]; try discriminate Hkey.
      cbn. repeat split. unfold wire_position. eauto.
Qed.

Lemma requests_carry_credential_witness :
  exists es h',
    ThrottledHome.run some_key false throttled_session mounted
    = Some (es, h')
    /\ request_count es = 2
    /\ Forall (well_formed_request some_key) es.
Proof.
  destruct (ThrottledHome.run some_key false throttled_session mounted)
    as [[es h']|] eqn:Hrun; [|vm_compute in Hrun; discriminate Hrun].
  exists es, h'. split; [reflexivity|]. split.
  - vm_compute in Hrun. injection Hrun as <- _. reflexivity.
  - destruct (requests_carry_credential some_key false) as [H _].
    exact (proj1 (H _ _ _ _ Hrun)).
Defined.

(** ** Location fixes *)

Lemma SFeqb_refl (x : spec_float) : x <> S754_nan -> SFeqb x x = true.
Proof.
  intros Hx. unfold SFeqb. destruct x as [s|s| |s m e]; cbn.
  - reflexivity.
  - destruct s; reflexivity.
  - contradiction.
  - destruct s; rewrite Z.compare_refl, Pos.compare_cont_refl; reflexivity.
Qed.

Lemma Prim2SF_30 : exists m e, Prim2SF 30 = S754_finite false m e.
Proof. eexists. eexists. vm_compute. reflexivity. Qed.

Lemma Prim2SF_zero : Prim2SF zero = S754_zero false.
Proof. vm_compute. reflexivity. Qed.

(** A Number above 30 is truthy: the first operand of
    [accuracy && accuracy > 30] never decides. *)
Lemma truthy_above_30 (accuracy : float) :
  truthy_number accuracy && (30 <? accuracy)%float
  = (30 <? accuracy)%float.
Proof.
  destruct (30 <? accuracy)%float eqn:Habove; [|apply andb_false_r].
  rewrite andb_true_r. unfold truthy_number, PrimFloat.is_zero, is_nan.
  rewrite FloatAxioms.ltb_spec in Habove.
  rewrite !FloatAxioms.eqb_spec, Prim2SF_zero.
  destruct Prim2SF_30 as (m30 & e30 & H30). rewrite H30 in Habove.
  destruct (Prim2SF accuracy) as [s|s| |s m e] eqn:Hacc.
  - discriminate Habove.
  - rewrite SFeqb_refl by discriminate. destruct s; reflexivity.
  - discriminate Habove.
  - rewrite SFeqb_refl by discriminate. destruct s; reflexivity.
Qed.

Lemma accuracy_filter_drop (location : LocationObject) (h : Home)
    (accuracy : float) :
  coords_accuracy location = Some accuracy ->
  (30 <? accuracy)%float = true ->
  CancellingHome.onLocation location h = h.
Proof.
  intros Hacc Habove. unfold CancellingHome.onLocation.
  rewrite Hacc, truthy_above_30, Habove. reflexivity.
Qed.

Lemma accuracy_filter_keep (location : LocationObject) (h : Home) :
  match coords_accuracy location with
  | Some accuracy => (30 <? accuracy)%float
  | None => false
  end = false ->
  CancellingHome.onLocation location h
  = ThrottledHome.onLocation location h.
Proof.
  intros Hkeep. unfold CancellingHome.onLocation, ThrottledHome.onLocation.
  destruct (coords_accuracy location) as [accuracy|]; [|reflexivity].
  rewrite truthy_above_30, Hkeep. reflexivity.
Qed.

(** X8: the accuracy filter of the second revision.  The location
    callback ignores a fix exactly when its accuracy is a number greater
    than 30; a fix without accuracy (null) or with accuracy NaN, 0 or 30
    is kept.  A fix that is kept is handled as in the first revision,
    which keeps every fix: the user location and the map region are set
    to it. *)
Theorem accuracy_filter (location : LocationObject) (h : Home) :
  CancellingHome.onLocation location h
  = (if match coords_accuracy location with
         | Some accuracy => (30 <? accuracy)%float
         | None => false
         end
     then h
     else ThrottledHome.onLocation location h)
  /\ ThrottledHome.onLocation location h
     = {| cells :=
            setUserLocation
              (Some {| latitude := coords_latitude location;
                       longitude := coords_longitude location |})
              (cells h);
          region :=
            Some (region_at (coords_latitude location)
                    (coords_longitude location)) |}
  /\ (30 <? nan)%float = false /\ (30 <? 0)%float = false
  /\ (30 <? 30)%float = false.
Proof.
  split; [|repeat split].
  unfold CancellingHome.onLocation, ThrottledHome.onLocation.
  destruct (coords_accuracy location) as [accuracy|]; [|reflexivity].
  rewrite truthy_above_30. reflexivity.
Qed.

(** X9: the second revision stays on the loading screen until a usable
    fix arrives.  While [region] is null the component renders only
    "Getting Location..."; a run of presses and of location fixes whose
    accuracy is above 30 leaves the component exactly as it was and
    issues nothing. *)
Theorem loading_until_usable_fix (key : option string) (guard : bool)
    (evs : list CancellingHome.Event) (h : Home)
    (Hregion : region h = None)
    (Hevs : Forall keeps_loading evs) :
  render h = LoadingScreen "Getting Location..."
  /\ CancellingHome.run key guard evs h = Some ([], h).
Proof.
  split; [unfold render; rewrite Hregion; reflexivity|].
  induction Hevs as [|ev rest Hev _ IH]; [reflexivity|].
  cbn [CancellingHome.run].
  assert (CancellingHome.dispatch key guard ev h = Some ([], h)) as ->.
  { destruct ev as [location|p| | | |controller r]; cbn in Hev;
      unfold CancellingHome.dispatch, render; rewrite ?Hregion;
      try reflexivity; [|contradiction].
    destruct Hev as (accuracy & Hacc & Habove).
    rewrite (accuracy_filter_drop location h accuracy Hacc Habove).
    reflexivity. }
  cbn. rewrite IH. reflexivity.
Qed.

Lemma loading_until_usable_fix_witness :
  (region mounted = None
   /\ Forall keeps_loading
        [CancellingHome.locationUpdate
           {| coords_latitude := 12.9716; coords_longitude := 77.5946;
              coords_accuracy := Some 65%float |};
         CancellingHome.mapPress majestic;
         CancellingHome.useMyLocationPress;
         CancellingHome.mapLongPress])
  /\ render mounted = LoadingScreen "Getting Location..."
  /\ CancellingHome.run some_key false
       [CancellingHome.locationUpdate
          {| coords_latitude := 12.9716; coords_longitude := 77.5946;
             coords_accuracy := Some 65%float |};
        CancellingHome.mapPress majestic;
        CancellingHome.useMyLocationPress;
        CancellingHome.mapLongPress] mounted
     = Some ([], mounted).
Proof.
  assert (Forall keeps_loading
            [CancellingHome.locationUpdate
               {| coords_latitude := 12.9716; coords_longitude := 77.5946;
                  coords_accuracy := Some 65%float |};
             CancellingHome.mapPress majestic;
             CancellingHome.useMyLocationPress;
             CancellingHome.mapLongPress]) as Hevs.
  { repeat constructor. exists 65%float. split; reflexivity. }
  split; [split; [reflexivity|exact Hevs]|].
  exact (loading_until_usable_fix some_key false _ mounted eq_refl Hevs).
Defined.

(** ** What the screen shows *)

Lemma consistent_same_view (s s' : State) :
  same_view s s' -> consistent s -> consistent s'.
Proof.
  intros (Hs & He & Hr & Hd & Ht) [[sel Hsel] Hroute].
  unfold consistent, selection, route_whole, no_route in *.
  rewrite Hs, He, Hr, Hd, Ht. eauto.
Qed.

Lemma same_view_fetch_throttled (key : option string) (guard : bool)
    (now : Z) (startLat startLng endLat endLng : float) (s : State) :
  same_view s (snd (Throttled.fetchRouteFromPoints key guard now
                      startLat startLng endLat endLng s)).
Proof.
  unfold Throttled.fetchRouteFromPoints. prefix_cases; repeat split.
Qed.

Lemma same_view_fetch_cancelling (key : option string) (guard : bool)
    (startLat startLng endLat endLng : float) (s : State) :
  same_view s (snd (Cancelling.fetchRouteFromPoints key guard
                      startLat startLng endLat endLng s)).
Proof.
  unfold Cancelling.fetchRouteFromPoints, Cancelling.abort.
  prefix_cases; repeat split.
Qed.

Lemma consistent_reset (s : State) (p : option Coordinate) :
  consistent
    (setDuration None
       (setDistance None
          (setRouteCoords [] (setEndPoint None (setStartPoint p s))))).
Proof.
  split; [|left; repeat split].
  unfold selection. cbn. destruct p; eauto.
Qed.

Lemma consistent_first_tap (s : State) (p : Coordinate) :
  startPoint s = None -> consistent s ->
  consistent
    (setDuration None
       (setDistance None (setRouteCoords [] (setStartPoint (Some p) s)))).
Proof.
  intros Hstart [[sel Hsel] _]. split; [|left; repeat split].
  unfold selection in *. cbn. rewrite Hstart in Hsel.
  destruct (endPoint s); [discriminate Hsel|eauto].
Qed.

Lemma consistent_second_tap (s s' : State) (a p : Coordinate) :
  startPoint s = Some a -> consistent s ->
  same_view (setEndPoint (Some p) s) s' -> consistent s'.
Proof.
  intros Hstart [_ Hroute] Hview.
  apply (consistent_same_view _ _ Hview). split.
  - unfold selection. cbn. rewrite Hstart. eauto.
  - exact Hroute.
Qed.

Lemma consistent_settled (s s' : State) (es : list Effect) :
  (request_count es = 0 /\ s' = s)
  \/ (exists coords summary d t,
        distance_text summary = Some d /\ duration_text summary = Some t
        /\ es = []
        /\ s' = setRouteCoords coords
                  (setDuration (Some t) (setDistance (Some d) s))) ->
  consistent s -> consistent s'.
Proof.
  intros Hshape Hok.
  destruct (settled_shape_whole _ _ _ Hshape)
    as (_ & (Hs & He & _) & [->|(_ & Hd & Ht)]); [exact Hok|].
  destruct Hok as [[sel Hsel] _]. split.
  - exists sel. unfold selection in *. rewrite Hs, He. exact Hsel.
  - right. split; assumption.
Qed.

Lemma consistent_handleUseMyLocation (s : State) :
  consistent s -> consistent (handleUseMyLocation s).
Proof.
  intros Hok. unfold handleUseMyLocation.
  destruct (userLocation s); [apply consistent_reset|exact Hok].
Qed.

Lemma consistent_setUserLocation (s : State) (v : option Coordinate) :
  consistent s -> consistent (setUserLocation v s).
Proof. apply consistent_same_view. repeat split. Qed.

Lemma throttled_dispatch_consistent (key : option string) (guard : bool)
    (ev : ThrottledHome.Event) (h h' : Home) (es : list Effect) :
  ThrottledHome.dispatch key guard ev h = Some (es, h') ->
  consistent (cells h) -> consistent (cells h').
Proof.
  intros H Hok. unfold ThrottledHome.dispatch, render in H.
  destruct ev as [location|now p| | | |r].
  - injection H as _ <-. apply consistent_setUserLocation. exact Hok.
  - destruct (region h); [|injection H as _ <-; exact Hok].
    unfold Throttled.handleMapPress in H. rewrite Coordinate_eta in H.
    destruct (startPoint (cells h)) as [a|] eqn:Hstart;
      [|injection H as _ <-; apply consistent_first_tap; assumption].
    destruct (endPoint (cells h));
      [injection H as _ <-; apply consistent_reset|].
    pose proof (same_view_fetch_throttled key guard now
                  (latitude a) (longitude a) (latitude p) (longitude p)
                  (setEndPoint (Some p) (cells h))) as Hview.
    destruct (Throttled.fetchRouteFromPoints key guard now _ _ _ _ _)
      as [[d es1] s1].
    injection H as _ <-.
    exact (consistent_second_tap _ _ a p Hstart Hok Hview).
  - destruct (region h); injection H as _ <-; [|exact Hok].
    apply (consistent_reset _ None).
  - destruct (region h); [|injection H as _ <-; exact Hok].
    cbn [useMyLocationButton] in H.
    destruct (negb _); injection H as _ <-; [|exact Hok].
    apply consistent_handleUseMyLocation. exact Hok.
  - destruct (region h); [|injection H as _ <-; exact Hok].
    cbn [routeCard] in H.
    match type of H with
    | match ?card with _ => _ end = _ => destruct card
    end; injection H as _ <-; [|exact Hok].
    apply (consistent_reset _ None).
  - destruct (Throttled.fetchRouteFromPoints_settled r (cells h))
      as [[es1 s1]|] eqn:Hset; [|discriminate H].
    cbn in H. injection H as _ <-.
    exact (consistent_settled _ _ _
             (throttled_settled_shape _ _ _ _ Hset) Hok).
Qed.

Lemma cancelling_dispatch_consistent (key : option string) (guard : bool)
    (ev : CancellingHome.Event) (h h' : Home) (es : list Effect) :
  CancellingHome.dispatch key guard ev h = Some (es, h') ->
  consistent (cells h) -> consistent (cells h').
Proof.
  intros H Hok. unfold CancellingHome.dispatch, render in H.
  destruct ev as [location|p| | | |controller r].
  - injection H as _ <-. unfold CancellingHome.onLocation.
    match goal with
    | |- context [if ?b then _ else _] => destruct b
    end; [exact Hok|]. apply consistent_setUserLocation. exact Hok.
  - destruct (region h); [|injection H as _ <-; exact Hok].
    unfold Cancelling.handleMapPress in H. rewrite Coordinate_eta in H.
    destruct (startPoint (cells h)) as [a|] eqn:Hstart;
      [|injection H as _ <-; apply consistent_first_tap; assumption].
    destruct (endPoint (cells h));
      [injection H as _ <-; apply consistent_reset|].
    pose proof (same_view_fetch_cancelling key guard
                  (latitude a) (longitude a) (latitude p) (longitude p)
                  (setEndPoint (Some p) (cells h))) as Hview.
    destruct (Cancelling.fetchRouteFromPoints key guard _ _ _ _ _)
      as [[d es1] s1].
    injection H as _ <-.
    exact (consistent_second_tap _ _ a p Hstart Hok Hview).
  - destruct (region h); injection H as _ <-; [|exact Hok].
    apply (consistent_reset _ None).
  - destruct (region h); [|injection H as _ <-; exact Hok].
    cbn [useMyLocationButton] in H.
    destruct (negb _); injection H as _ <-; [|exact Hok].
    apply consistent_handleUseMyLocation. exact Hok.
  - destruct (region h); [|injection H as _ <-; exact Hok].
    cbn [routeCard] in H.
    match type of H with
    | match ?card with _ => _ end = _ => destruct card
    end; injection H as _ <-; [|exact Hok].
    apply (consistent_reset _ None).
  - destruct (Cancelling.fetchRouteFromPoints_settled controller r
                (cells h)) as [[es1 s1]|] eqn:Hset; [|discriminate H].
    cbn in H. injection H as _ <-.
    exact (consistent_settled _ _ _
             (cancelling_settled_shape _ _ _ _ _ Hset) Hok).
Qed.

(** The map screen of a consistent component. *)
Lemma render_consistent (h : Home) (m : MapScreen) :
  consistent (cells h) -> render h = Screen m ->
  exists sel,
    selection (cells h) = Some sel /\ screen_matches sel m
    /\ (routeCard m = None <-> distance (cells h) = None)
    /\ (polyline m = None <-> routeCoords (cells h) = []).
Proof.
  intros [[sel Hsel] Hroute] Hrender. exists sel. split; [exact Hsel|].
  unfold render in Hrender. destruct (region h); [|discriminate Hrender].
  injection Hrender as <-. cbn [routeCard polyline].
  unfold selection in Hsel. split; [|split].
  - destruct (startPoint (cells h)), (endPoint (cells h));
      inversion Hsel; subst sel; cbn; repeat split.
  - destruct Hroute as [(_ & Hd & _)|[Hd Ht]];
      [rewrite Hd; split; reflexivity|].
    destruct (distance (cells h)) as [d|]; [|discriminate Hd].
    destruct (duration (cells h)) as [t|]; [|discriminate Ht].
    cbn in Hd, Ht |- *. rewrite Hd, Ht. split; discriminate.
  - destruct (routeCoords (cells h)); cbn; split; try discriminate;
      reflexivity.
Qed.

(** X10: the screen follows the selection.  From a component whose
    selection is one of the three states and whose route artifact is
    whole (as when it mounts), every run of events of either revision
    ends in such a component; whenever the map is on screen it shows the
    start instruction and the "Use my location" button exactly in Idle,
    the destination instruction exactly in StartChosen, the markers of
    the chosen points and nothing else, and the route card exactly when a
    distance is stored. *)
Theorem screen_follows_selection (key : option string) (guard : bool) :
  (forall evs h h' es,
      ThrottledHome.run key guard evs h = Some (es, h') ->
      consistent (cells h) ->
      consistent (cells h')
      /\ forall m, render h' = Screen m ->
           exists sel,
             selection (cells h') = Some sel /\ screen_matches sel m
             /\ (routeCard m = None <-> distance (cells h') = None)
             /\ (polyline m = None <-> routeCoords (cells h') = []))
  /\ (forall evs h h' es,
        CancellingHome.run key guard evs h = Some (es, h') ->
        consistent (cells h) ->
        consistent (cells h')
        /\ forall m, render h' = Screen m ->
             exists sel,
               selection (cells h') = Some sel /\ screen_matches sel m
               /\ (routeCard m = None <-> distance (cells h') = None)
               /\ (polyline m = None <-> routeCoords (cells h') = [])).
Proof.
  split; intros evs h h' es Hrun Hok;
    (assert (consistent (cells h')) as Hok';
     [|split; [exact Hok'|intros m; apply render_consistent; exact Hok']]).
  - revert h es Hrun Hok. induction evs as [|ev rest IH];
      intros h es Hrun Hok.
    + injection Hrun as _ <-. exact Hok.
    + apply throttled_run_cons in Hrun
        as (es1 & h1 & es2 & Hstep & Hrest & _).
      exact (IH _ _ Hrest (throttled_dispatch_consistent _ _ _ _ _ _
                             Hstep Hok)).
  - revert h es Hrun Hok. induction evs as [|ev rest IH];
      intros h es Hrun Hok.
    + injection Hrun as _ <-. exact Hok.
    + apply (cancelling_run_cons key guard) in Hrun
        as (es1 & h1 & es2 & Hstep & Hrest & _).
      exact (IH _ _ Hrest (cancelling_dispatch_consistent _ _ _ _ _ _
                             Hstep Hok)).
Qed.

Lemma screen_follows_selection_witness :
  consistent (cells mounted)
  /\ exists es h' m,
       CancellingHome.run some_key false cancelling_session mounted
       = Some (es, h')
       /\ render h' = Screen m
       /\ selection (cells h') = Some (RouteReady koramangala majestic)
       /\ exists sel,
            selection (cells h') = Some sel /\ screen_matches sel m
            /\ (routeCard m = None <-> distance (cells h') = None)
            /\ (polyline m = None <-> routeCoords (cells h') = []).
Proof.
  assert (consistent (cells mounted)) as Hok.
  { split; [exists Idle; reflexivity|left; repeat split]. }
  split; [exact Hok|].
  destruct (CancellingHome.run some_key false cancelling_session mounted)
    as [[es h']|] eqn:Hrun; [|vm_compute in Hrun; discriminate Hrun].
  destruct (screen_follows_selection some_key false) as [_ H].
  destruct (H _ _ _ _ Hrun Hok) as [_ Hscreen].
  destruct (render h') as [text|m] eqn:Hrender.
  - exfalso. vm_compute in Hrun. injection Hrun as _ <-.
    discriminate Hrender.
  - exists es, h', m. split; [reflexivity|]. split; [exact Hrender|].
    split; [|exact (Hscreen m eq_refl)].
    vm_compute in Hrun. injection Hrun as _ <-. reflexivity.
Defined.

(** ** A response that arrives late *)

(** X11: clearing does not withdraw a request.  With the map on screen, a
    long press followed by the resolution of an earlier request leaves
    the component in Idle with a route on screen: the card with the
    response's duration and distance and its polyline (densified in the
    second revision), no marker, the start instruction and the "Use my
    location" button.  In the second revision the long press aborts no
    controller. *)
Theorem route_shown_after_clear (key : option string) (guard : bool)
    (h : Home) (r : Region) (x : Coordinate) (rest : list Coordinate)
    (summary : Summary) (d t : string) (controller : nat)
    (Hregion : region h = Some r)
    (Hd : distance_text summary = Some d)
    (Ht : duration_text summary = Some t) :
  let idle_with (route : list Coordinate) :=
    Screen
      {| startInput := ""; endInput := "";
         useMyLocationButton := true;
         routeCard := Some (t, d);
         mapRegion := r;
         startMarker := None; endMarker := None;
         polyline := Some route;
         instructions := ["Tap on the map to set your start location"] |} in
  (exists h',
      ThrottledHome.run key guard
        [ThrottledHome.mapLongPress;
         ThrottledHome.requestSettled (response_for (x :: rest) summary)] h
      = Some ([], h')
      /\ selection (cells h') = Some Idle
      /\ render h' = idle_with (x :: rest))
  /\ (exists h',
        CancellingHome.run key guard
          [CancellingHome.mapLongPress;
           CancellingHome.requestSettled controller
             (response_for (x :: rest) summary)] h
        = Some ([], h')
        /\ selection (cells h') = Some Idle
        /\ controllers (cells h') = controllers (cells h)
        /\ cancelTokenRef (cells h') = cancelTokenRef (cells h)
        /\ render h' = idle_with (x :: midpoints_after x rest)).
Proof.
  intros idle_with. subst idle_with.
  pose proof (distance_text_truthy _ _ Hd) as Hdt.
  pose proof (duration_text_truthy _ _ Ht) as Htt.
  split.
  - eexists. split; [|split].
    + assert (ThrottledHome.dispatch key guard ThrottledHome.mapLongPress h
              = Some ([], with_cells (handleClearAll (cells h)) h)) as Hlp
        by (unfold ThrottledHome.dispatch, render; rewrite Hregion;
            reflexivity).
      cbn [ThrottledHome.run]. rewrite Hlp. cbn [mbind option_bind].
      unfold ThrottledHome.dispatch.
      rewrite (throttled_settled_response _ _ _ _ _ Hd Ht).
      cbn [mbind option_bind app]. reflexivity.
    + reflexivity.
    + unfold render. cbn [region with_cells]. rewrite Hregion.
      cbn -[truthy]. rewrite Hdt, Htt. reflexivity.
  - eexists. split; [|split; [|split; [|split]]].
    + assert (CancellingHome.dispatch key guard
                CancellingHome.mapLongPress h
              = Some ([], with_cells (handleClearAll (cells h)) h)) as Hlp
        by (unfold CancellingHome.dispatch, render; rewrite Hregion;
            reflexivity).
      cbn [CancellingHome.run]. rewrite Hlp. cbn [mbind option_bind].
      unfold CancellingHome.dispatch.
      rewrite (cancelling_settled_response _ _ _ _ _ _ _
                 (smoothCoords_cons x rest) Hd Ht).
      cbn [mbind option_bind app]. reflexivity.
    + reflexivity.
    + reflexivity.
    + reflexivity.
    + unfold render. cbn [region with_cells]. rewrite Hregion.
      cbn -[truthy]. rewrite Hdt, Htt. reflexivity.
Qed.

Lemma route_shown_after_clear_witness :
  (region (ThrottledHome.onLocation session_fix mounted)
   = Some (region_at 12.9716 77.5946)
   /\ distance_text {| summary_distance := 12345; summary_duration := 1800 |}
      = Some "12.35 km"
   /\ duration_text {| summary_distance := 12345; summary_duration := 1800 |}
      = Some "30 min")
  /\ exists h',
       ThrottledHome.run some_key false
         [ThrottledHome.mapLongPress;
          ThrottledHome.requestSettled
            (response_for [majestic; koramangala]
               {| summary_distance := 12345; summary_duration := 1800 |})]
         (ThrottledHome.onLocation session_fix mounted)
       = Some ([], h')
       /\ selection (cells h') = Some Idle
       /\ render h'
          = Screen
              {| startInput := ""; endInput := "";
                 useMyLocationButton := true;
                 routeCard := Some ("30 min", "12.35 km");
                 mapRegion := region_at 12.9716 77.5946;
                 startMarker := None; endMarker := None;
                 polyline := Some [majestic; koramangala];
                 instructions :=
                   ["Tap on the map to set your start location"] |}.
Proof.
  assert (distance_text
            {| summary_distance := 12345; summary_duration := 1800 |}
          = Some "12.35 km") as Hd by (vm_compute; reflexivity).
  assert (duration_text
            {| summary_distance := 12345; summary_duration := 1800 |}
          = Some "30 min") as Ht by (vm_compute; reflexivity).
  split; [repeat split; assumption|].
  exact (proj1 (route_shown_after_clear some_key false
                  (ThrottledHome.onLocation session_fix mounted)
                  (region_at 12.9716 77.5946) majestic [koramangala]
                  _ _ _ 0 eq_refl Hd Ht)).
Defined.

(** ** Starting from the user's location *)

Lemma cancelling_fetch_admits (key : option string) (guard : bool)
    (startLat startLng endLat endLng : float) (s : State) :
  truthy key = true ->
  negb guard && (SAFETY_LIMIT <=? requestCountRef s)%Z = false ->
  fst (Cancelling.fetchRouteFromPoints key guard
         startLat startLng endLat endLng s)
  = (AdmittedWith (Some (length (controllers s))),
     [axios_post directions_url
        (Cancelling.request_body startLat startLng endLat endLng)
        (default "" key) (Some (length (controllers s)))]).
Proof.
  intros Hkey Hguard. unfold Cancelling.fetchRouteFromPoints.
  fold (abort_current s). rewrite Hkey. cbn [negb].
  assert (requestCountRef (abort_current s) = requestCountRef s) as ->.
  { unfold abort_current, Cancelling.abort.
    destruct (cancelTokenRef s); reflexivity. }
  rewrite Hguard, length_abort_current. reflexivity.
Qed.

Lemma userLocation_fetch_cancelling (key : option string) (guard : bool)
    (startLat startLng endLat endLng : float) (s : State) :
  userLocation (snd (Cancelling.fetchRouteFromPoints key guard
                       startLat startLng endLat endLng s))
  = userLocation s.
Proof.
  unfold Cancelling.fetchRouteFromPoints, Cancelling.abort.
  prefix_cases; reflexivity.
Qed.

(** X12: in the second revision, a usable location fix, the "Use my
    location" button and one tap make one route request, from the fix to
    the tapped point.  With no start point chosen, a key configured and
    the quota not exhausted, the three events issue exactly one request
    whose positions are the fix and the tap, under a fresh controller,
    and leave the selection at RouteReady (fix, tap) with the map
    centred on the fix. *)
Theorem route_from_my_location (k : string) (guard : bool) (h : Home)
    (location : LocationObject) (p : Coordinate)
    (Hkey : truthy (Some k) = true)
    (Hquota : guard = false ->
              (requestCountRef (cells h) < SAFETY_LIMIT)%Z)
    (Husable : match coords_accuracy location with
               | Some accuracy => (30 <? accuracy)%float
               | None => false
               end = false)
    (Hstart : startPoint (cells h) = None) :
  let here := {| latitude := coords_latitude location;
                 longitude := coords_longitude location |} in
  exists h',
    CancellingHome.run (Some k) guard
      [CancellingHome.locationUpdate location;
       CancellingHome.useMyLocationPress;
       CancellingHome.mapPress p] h
    = Some ([axios_post directions_url
               (Cancelling.request_body
                  (coords_latitude location) (coords_longitude location)
                  (latitude p) (longitude p))
               k (Some (length (controllers (cells h))))],
            h')
    /\ selection (cells h') = Some (RouteReady here p)
    /\ userLocation (cells h') = Some here
    /\ region h'
       = Some (region_at (coords_latitude location)
                 (coords_longitude location)).
Proof.
  intros here.
  assert (CancellingHome.onLocation location h
          = {| cells := setUserLocation (Some here) (cells h);
               region := Some (region_at (coords_latitude location)
                                 (coords_longitude location)) |}) as Hfix.
  { rewrite (accuracy_filter_keep location h Husable). reflexivity. }
  set (h1 := {| cells := setUserLocation (Some here) (cells h);
                region := Some (region_at (coords_latitude location)
                                  (coords_longitude location)) |}) in *.
  set (s2 := handleUseMyLocation (cells h1)).
  assert (CancellingHome.dispatch (Some k) guard
            CancellingHome.useMyLocationPress h1
          = Some ([], with_cells s2 h1)) as Hbutton.
  { unfold CancellingHome.dispatch, render. cbn. rewrite Hstart.
    reflexivity. }
  assert (negb guard && (SAFETY_LIMIT <=? requestCountRef (cells h))%Z
          = false) as Hguard.
  { destruct guard; [reflexivity|]. cbn. apply Z.leb_gt. auto. }
  set (s3 := setEndPoint (Some p) s2).
  pose proof (cancelling_fetch_admits (Some k) guard
                (coords_latitude location) (coords_longitude location)
                (latitude p) (longitude p) s3 Hkey Hguard) as Hadmit.
  pose proof (selection_fetch_cancelling (Some k) guard
                (coords_latitude location) (coords_longitude location)
                (latitude p) (longitude p) s3) as Hsel.
  pose proof (userLocation_fetch_cancelling (Some k) guard
                (coords_latitude location) (coords_longitude location)
                (latitude p) (longitude p) s3) as Hloc.
  destruct (Cancelling.fetchRouteFromPoints (Some k) guard
              (coords_latitude location) (coords_longitude location)
              (latitude p) (longitude p) s3) as [[dec es] s4] eqn:Hfetch.
  cbn [fst snd] in Hadmit, Hsel, Hloc. injection Hadmit as -> ->.
  exists (with_cells s4 (with_cells s2 h1)).
  split; [|split; [|split]].
  - cbn [CancellingHome.run].
    change (CancellingHome.dispatch (Some k) guard
              (CancellingHome.locationUpdate location) h)
      with (Some (@nil Effect, CancellingHome.onLocation location h)).
    rewrite Hfix. cbn [mbind option_bind]. rewrite Hbutton.
    cbn [mbind option_bind].
    assert (CancellingHome.dispatch (Some k) guard
              (CancellingHome.mapPress p) (with_cells s2 h1)
            = Some ([axios_post directions_url
                       (Cancelling.request_body
                          (coords_latitude location)
                          (coords_longitude location)
                          (latitude p) (longitude p))
                       k (Some (length (controllers (cells h))))],
                    with_cells s4 (with_cells s2 h1))) as ->.
    { unfold CancellingHome.dispatch, render, Cancelling.handleMapPress.
      rewrite Coordinate_eta. cbn [region with_cells h1 cells].
      change (startPoint s2) with (Some here).
      change (endPoint s2) with (@None Coordinate).
      cbv iota beta.
      change (latitude here) with (coords_latitude location).
      change (longitude here) with (coords_longitude location).
      fold s3. rewrite Hfetch. reflexivity. }
    reflexivity.
  - cbn [cells with_cells]. rewrite Hsel. reflexivity.
  - cbn [cells with_cells]. rewrite Hloc. reflexivity.
  - reflexivity.
Qed.

Lemma route_from_my_location_witness :
  (truthy (Some "test-key") = true
   /\ (requestCountRef (cells mounted) < SAFETY_LIMIT)%Z
   /\ (30 <? 5)%float = false
   /\ startPoint (cells mounted) = None)
  /\ exists h',
       CancellingHome.run (Some "test-key") false
         [CancellingHome.locationUpdate session_fix;
          CancellingHome.useMyLocationPress;
          CancellingHome.mapPress koramangala] mounted
       = Some ([axios_post directions_url
                  (Cancelling.request_body 12.9716 77.5946 12.9352 77.6245)
                  "test-key" (Some 0)],
               h')
       /\ selection (cells h')
          = Some (RouteReady {| latitude := 12.9716; longitude := 77.5946 |}
                    koramangala)
       /\ userLocation (cells h')
          = Some {| latitude := 12.9716; longitude := 77.5946 |}
       /\ region h' = Some (region_at 12.9716 77.5946).
Proof.
  assert (requestCountRef (cells mounted) < SAFETY_LIMIT)%Z as Hquota
    by (vm_compute; reflexivity).
  split; [repeat split; exact Hquota|].
  exact (route_from_my_location "test-key" false mounted session_fix
           koramangala eq_refl (fun _ => Hquota) eq_refl eq_refl).
Defined.

(** ** The navigation screen *)

Lemma navigation_run_cons (key : option string) (ev : Navigation.Event)
    (rest : list Navigation.Event) (s s' : Navigation.Cells)
    (es : list Navigation.Call) :
  Navigation.run key (ev :: rest) s = Some (es, s') ->
  exists es1 s1 es2,
    Navigation.dispatch key ev s = Some (es1, s1)
    /\ Navigation.run key rest s1 = Some (es2, s')
    /\ es = es1 ++ es2.
Proof.
  cbn [Navigation.run]. intros H.
  destruct (Navigation.dispatch key ev s) as [[es1 s1]|] eqn:Hd;
    [|discriminate H].
  cbn in H.
  destruct (Navigation.run key rest s1) as [[es2 s2]|] eqn:Hr;
    [|discriminate H].
  cbn in H. injection H as <- <-. exists es1, s1, es2.
  split; [reflexivity|]. split; [exact Hr|reflexivity].
Qed.

(** What a settled request does on the navigation screen: it issues no
    request, keeps the region and the step index, and replaces the
    polyline and the steps together or not at all. *)
Lemma navigation_settled_shape (r : Navigation.Response)
    (s s' : Navigation.Cells) (es : list Navigation.Call) :
  Navigation.fetchRoute_settled r s = Some (es, s') ->
  Navigation.requests es = []
  /\ Navigation.region s' = Navigation.region s
  /\ Navigation.currentStepIndex s' = Navigation.currentStepIndex s
  /\ ((exists err, es = [Navigation.console_log err]) /\ s' = s
      \/ es = []).
Proof.
  unfold Navigation.fetchRoute_settled. intros H.
  repeat (case_match; simplify_option_eq); repeat split; eauto.
Qed.

(** X13: the navigation screen sends one route request per location fix,
    unconditionally.  Over any run of location fixes and settled
    requests, the requests sent are, in order, one per fix, from the fix
    to the fixed destination (12.9716, 77.5946), with whatever
    [ORS_API_KEY] holds as Authorization: there is no spacing, no quota
    and no check of the key, and a missing key only logs once when the
    module loads. *)
Theorem navigation_requests_every_fix (key : option string)
    (evs : list Navigation.Event) (s s' : Navigation.Cells)
    (es : list Navigation.Call)
    (Hrun : Navigation.run key evs s = Some (es, s')) :
  Navigation.requests es
  = map (fun location =>
           Navigation.axios_post directions_url
             [[coords_longitude location; coords_latitude location];
              [77.5946; 12.9716]%float]
             key)
      (Navigation.fixes evs)
  /\ (truthy key = false ->
      Navigation.load key
      = [Navigation.console_error
           "❌ OpenRouteService API key is missing. Check your .env file."]).
Proof.
  split; [|intros Hkey; unfold Navigation.load; rewrite Hkey; reflexivity].
  revert s es Hrun. induction evs as [|ev rest IH]; intros s es Hrun.
  - injection Hrun as <- _. reflexivity.
  - apply navigation_run_cons in Hrun
      as (es1 & s1 & es2 & Hstep & Hrest & ->).
    unfold Navigation.requests in *. rewrite filter_app, (IH _ _ Hrest).
    destruct ev as [location|r]; cbn [Navigation.dispatch] in Hstep.
    + injection Hstep as <- _. reflexivity.
    + apply navigation_settled_shape in Hstep as [Hnone _].
      unfold Navigation.requests in Hnone. rewrite Hnone. reflexivity.
Qed.

Lemma navigation_requests_every_fix_witness :
  exists es s',
    Navigation.run None
      [Navigation.locationUpdate session_fix;
       Navigation.requestSettled (Navigation.rejected TypeError);
       Navigation.locationUpdate session_fix] Navigation.mounted
    = Some (es, s')
    /\ Navigation.requests es
       = [Navigation.axios_post directions_url
            [[77.5946; 12.9716]; [77.5946; 12.9716]]%float None;
          Navigation.axios_post directions_url
            [[77.5946; 12.9716]; [77.5946; 12.9716]]%float None].
Proof.
  destruct (Navigation.run None
              [Navigation.locationUpdate session_fix;
               Navigation.requestSettled (Navigation.rejected TypeError);
               Navigation.locationUpdate session_fix] Navigation.mounted)
    as [[es s']|] eqn:Hrun; [|vm_compute in Hrun; discriminate Hrun].
  exists es, s'. split; [reflexivity|].
  exact (proj1 (navigation_requests_every_fix None _ _ _ _ Hrun)).
Defined.

Lemma navigation_index_kept (key : option string)
    (evs : list Navigation.Event) (s s' : Navigation.Cells)
    (es : list Navigation.Call) :
  Navigation.run key evs s = Some (es, s') ->
  Navigation.currentStepIndex s' = Navigation.currentStepIndex s.
Proof.
  revert s es. induction evs as [|ev rest IH]; intros s es Hrun.
  - injection Hrun as _ <-. reflexivity.
  - apply navigation_run_cons in Hrun
      as (es1 & s1 & es2 & Hstep & Hrest & _).
    rewrite (IH _ _ Hrest).
    destruct ev as [location|r]; cbn [Navigation.dispatch] in Hstep.
    + injection Hstep as _ <-. reflexivity.
    + apply navigation_settled_shape in Hstep as (_ & _ & Hi & _).
      exact Hi.
Qed.

(** X14: the navigation screen never advances its step index.  After any
    run of events from the mounted screen [currentStepIndex] is still 0,
    so [getNextTurnDistance] reports the first step of the steps last
    stored: [null] when there are none, the first step's distance rounded
    to an integer otherwise; it throws when the last response stored
    [undefined] steps. *)
Theorem next_turn_is_first_step (key : option string)
    (evs : list Navigation.Event) (s' : Navigation.Cells)
    (es : list Navigation.Call)
    (Hrun : Navigation.run key evs Navigation.mounted = Some (es, s')) :
  Navigation.currentStepIndex s' = 0
  /\ Navigation.getNextTurnDistance s'
     = match Navigation.steps s' with
       | None => inl TypeError
       | Some [] => inr None
       | Some (step :: _) =>
           inr (Some (Math_round (Navigation.step_distance step)))
       end.
Proof.
  pose proof (navigation_index_kept _ _ _ _ _ Hrun) as Hindex.
  cbn in Hindex. split; [exact Hindex|].
  unfold Navigation.getNextTurnDistance. rewrite Hindex.
  destruct (Navigation.steps s') as [[|step l]|]; reflexivity.
Qed.

Lemma next_turn_is_first_step_witness :
  exists es s',
    Navigation.run some_key
      [Navigation.locationUpdate session_fix;
       Navigation.requestSettled
         (Navigation.resolved
            [{| Navigation.route_coordinates := Some [[77.5946; 12.9716]];
                Navigation.route_segments :=
                  Some [{| Navigation.segment_steps :=
                             Some [{| Navigation.instruction := "Head north";
                                      Navigation.step_distance := 120.5 |};
                                   {| Navigation.instruction := "Turn left";
                                      Navigation.step_distance := 80 |}]
                        |}] |}])]%float
      Navigation.mounted
    = Some (es, s')
    /\ Navigation.currentStepIndex s' = 0
    /\ Navigation.getNextTurnDistance s' = inr (Some 121%float).
Proof.
  destruct (Navigation.run some_key
      [Navigation.locationUpdate session_fix;
       Navigation.requestSettled
         (Navigation.resolved
            [{| Navigation.route_coordinates := Some [[77.5946; 12.9716]];
                Navigation.route_segments :=
                  Some [{| Navigation.segment_steps :=
                             Some [{| Navigation.instruction := "Head north";
                                      Navigation.step_distance := 120.5 |};
                                   {| Navigation.instruction := "Turn left";
                                      Navigation.step_distance := 80 |}]
                        |}] |}])]%float
      Navigation.mounted)
    as [[es s']|] eqn:Hrun; [|vm_compute in Hrun; discriminate Hrun].
  exists es, s'. split; [reflexivity|].
  destruct (next_turn_is_first_step _ _ _ _ Hrun) as [Hi Hturn].
  split; [exact Hi|]. rewrite Hturn.
  vm_compute in Hrun. injection Hrun as _ <-. vm_compute. reflexivity.
Defined.
